(** * SpectraDownshift: the transform kernel of [Spectradownshift/processor.py]

    A shallow embedding of the class [AudioProcessor] and of the two lines
    of [gui/app.py] that drive it, followed by the properties of the kernel
    stated in the specification.

    Modelling conventions.
    - Python [int] values are [Z].  Python [float] values that hold rates
      and ratios ([intermediate_sr], [nyquist], [speed_factor], the sample
      count before rounding) are exact rationals [Q]: every operation on
      them is the exact one, a division by zero raises as in Python.
      This is what the code computes as long as the integers it converts
      are doubles, that is up to 2^53 in absolute value, and the count
      before rounding is a quotient with a numerator below 2^52; beyond,
      Python rounds, or raises [OverflowError] in [float(cutoff_freq * 2)].
      The count of line 58 is also given on binary64, to compare the two
      on concrete inputs.
    - A NumPy array is its [dtype] and the list of its rows along axis 0;
      the kernel never looks inside a row, so the row type is a parameter.
    - [scipy.signal.resample], [butter], [filtfilt] and the module [soxr]
      are not part of the repository.  They are the four module-level
      names bound by the guarded imports at the top of the file, each of
      which may be [None]; a [Runtime] record holds them.
    - A method is a computation over a [World]: the receiver [self] and
      the lines printed so far, one [line] per [print] with the values it
      formats.  An exception keeps what was printed. *)

From Stdlib Require Import ZArith QArith Qround Qabs List String Bool Lia Lqa.
From Stdlib Require PrimFloat FloatOps SpecFloat Uint63.
Import ListNotations.

Local Open Scope Z_scope.

(** ** Python values *)

Inductive exn : Type :=
| TypeError (msg : string)
| ImportError (msg : string)
| ValueError (msg : string)
| ZeroDivisionError.

Inductive outcome (A : Type) : Type :=
| Return (a : A)
| Raise (e : exn).

Arguments Return {A} a.
Arguments Raise {A} e.

Inductive dtype : Type :=
| float16 | float32 | float64
| int16 | int32 | int64 | uint8
| complex128.

(** [np.issubdtype(d, np.floating)] *)
Definition issubdtype_floating (d : dtype) : bool :=
  match d with
  | float16 | float32 | float64 => true
  | _ => false
  end.

Record ndarray (row : Type) : Type := mk_ndarray {
  dtype_of : dtype;
  rows : list row
}.

Arguments mk_ndarray {row} _ _.
Arguments dtype_of {row} _.
Arguments rows {row} _.

(** [len(a)]: the extent of axis 0. *)
Definition len {row : Type} (a : ndarray row) : Z :=
  Z.of_nat (List.length (rows a)).

(** What a caller may pass as [data]: an array, or anything else. *)
Inductive pyobject (row : Type) : Type :=
| Ndarray (a : ndarray row)
| NotAnArray.

Arguments Ndarray {row} a.
Arguments NotAnArray {row}.

(** ** Arithmetic on rates *)

(** [np.round] on a real: to the nearest integer, a tie to the even one. *)
Definition np_round (x : Q) : Z :=
  let f := Qfloor x in
  match Qcompare (x - inject_Z f) (1 # 2) with
  | Lt => f
  | Gt => f + 1
  | Eq => if Z.even f then f else f + 1
  end.

(** *** The same count on binary64

    Line 58 of the module, [int(np.round(len(data) * out_sr / in_sr))],
    as Python evaluates it.  An [int] that meets a [float] is converted to
    the nearest double, which fails with [OverflowError] from
    [2^1024 - 2^970] on; the product and the quotient of doubles are
    rounded to the nearest double; a division by [0.0] raises; [int] of an
    infinity or a NaN raises.  [None] stands for all of these failures.
    The two functions are there to compare the exact count with the count
    of the code on concrete inputs, and to show where the two part.

    The exact count is the count of the code as long as the integers
    involved are doubles and the quotient cannot be rounded onto or across
    a tie: a quotient p / q of integers with 0 < p < 2^52 is at least
    1 / (2q) away from any half-integer it differs from, which is more
    than half a unit in its last place (this is proved below, for the
    quotient rounded to 53 bits).  The theorems on counts are stated
    within these bounds. *)
Definition float_of_int (n : Z) : option PrimFloat.float :=
  match SpecFloat.binary_normalize 53 1024 n 0 false with
  | SpecFloat.S754_infinity _ => None
  | sf => Some (FloatOps.SF2Prim sf)
  end.

Definition two52 : PrimFloat.float :=
  PrimFloat.of_uint63 (Uint63.of_Z (2 ^ 52)).

(** [np.round] on a double: [rint], to nearest, a tie to even. *)
Definition rint (x : PrimFloat.float) : PrimFloat.float :=
  if PrimFloat.ltb (PrimFloat.abs x) two52 then
    if PrimFloat.ltb x PrimFloat.zero
    then PrimFloat.opp
           (PrimFloat.sub (PrimFloat.add (PrimFloat.opp x) two52) two52)
    else PrimFloat.sub (PrimFloat.add x two52) two52
  else x.

(** [int(x)]: [None] where Python raises, on an infinity or a NaN. *)
Definition int_of_float (x : PrimFloat.float) : option Z :=
  match FloatOps.Prim2SF x with
  | SpecFloat.S754_zero _ => Some 0
  | SpecFloat.S754_finite s m e =>
      let v := if 0 <=? e then Z.pos m * 2 ^ e else Z.pos m / 2 ^ (- e) in
      Some (if s then - v else v)
  | _ => None
  end.

(** [x / y] on doubles: [None] for Python's [ZeroDivisionError]. *)
Definition float_truediv (x y : PrimFloat.float) : option PrimFloat.float :=
  if PrimFloat.eqb y PrimFloat.zero then None else Some (PrimFloat.div x y).

(** The count of [prepare]: [in_sr] is the double [float(cutoff_freq * 2)]
    and [len(data) * out_sr] a product of two [int]s. *)
Definition prepare_count_binary64 (n R C : Z) : option Z :=
  match float_of_int (C * 2), float_of_int (n * R) with
  | Some in_sr, Some p =>
      match float_truediv p in_sr with
      | Some q => int_of_float (rint q)
      | None => None
      end
  | _, _ => None
  end.

(** The count of [restore]: [out_sr] is the double [float(cutoff_freq * 2)],
    [len(data) * out_sr] a product of doubles and [in_sr] an [int]. *)
Definition restore_count_binary64 (n R C : Z) : option Z :=
  match float_of_int (C * 2), float_of_int n, float_of_int R with
  | Some out_sr, Some len_, Some in_sr =>
      match float_truediv (PrimFloat.mul len_ out_sr) in_sr with
      | Some q => int_of_float (rint q)
      | None => None
      end
  | _, _, _ => None
  end.

(** *** The quotient of two doubles

    For integers [0 < a] and [0 < b] that are doubles and a quotient below
    2^53, the double [a / b] is the quotient rounded to 53 significant
    bits, to nearest, a tie to even: with [s] such that [a * 2^s / b] lies
    between 2^52 and 2^53, it is that number rounded to an integer, over
    [2^s]. *)
Definition quotient_shift (a b : Z) : Z :=
  let s0 := 52 + Z.log2 b - Z.log2 a in
  if 2 ^ 52 * b <=? a * 2 ^ s0 then s0 else s0 + 1.

Definition quotient_binary64 (a b : Z) : Q :=
  let s := quotient_shift a b in
  (inject_Z (np_round (inject_Z (a * 2 ^ s) / inject_Z b)) / inject_Z (2 ^ s))%Q.

(** The value of a double that is finite. *)
Definition Q_of_float (x : PrimFloat.float) : option Q :=
  match FloatOps.Prim2SF x with
  | SpecFloat.S754_zero _ => Some 0%Q
  | SpecFloat.S754_finite s m e =>
      let v := (inject_Z (Z.pos m) * Qpower 2 e)%Q in
      Some (if s then (- v)%Q else v)
  | _ => None
  end.

(** [a / b] on the doubles of two integers, against the rounded quotient. *)
Definition quotient_checked (a b : Z) : bool :=
  match float_of_int a, float_of_int b with
  | Some x, Some y =>
      match Q_of_float (PrimFloat.div x y) with
      | Some q => Qeq_bool q (quotient_binary64 a b)
      | None => false
      end
  | _, _ => false
  end.

(** ** The optional libraries *)

Record soxr_module (row : Type) : Type := mk_soxr {
  (** [soxr.resample(x, in_rate, out_rate, quality)] *)
  soxr_resample : ndarray row -> Q -> Q -> string -> outcome (ndarray row)
}.

Arguments mk_soxr {row} _.
Arguments soxr_resample {row} _ _ _ _ _.

Record Runtime (row coef : Type) : Type := mk_runtime {
  (** [scipy.signal.resample(x, num, axis)] *)
  scipy_resample : option (ndarray row -> Z -> Z -> outcome (ndarray row));
  (** [scipy.signal.butter(N, Wn, btype, analog)], returning [(b, a)] *)
  butter : option (Z -> Q -> string -> bool -> outcome (list coef * list coef));
  (** [scipy.signal.filtfilt(b, a, x, axis)] *)
  filtfilt : option (list coef -> list coef -> ndarray row -> Z -> outcome (ndarray row));
  soxr : option (soxr_module row)
}.

Arguments mk_runtime {row coef} _ _ _ _.
Arguments scipy_resample {row coef} _.
Arguments butter {row coef} _.
Arguments filtfilt {row coef} _.
Arguments soxr {row coef} _.

(** ** The receiver and the console *)

Record AudioProcessor (row : Type) : Type := mk_AudioProcessor {
  data : ndarray row;
  original_sr : Z;
  cutoff_freq : Z;
  intermediate_sr : Q
}.

Arguments mk_AudioProcessor {row} _ _ _ _.
Arguments data {row} _.
Arguments original_sr {row} _.
Arguments cutoff_freq {row} _.
Arguments intermediate_sr {row} _.

(** One constructor per [print] of the module, with the values it formats. *)
Inductive line : Type :=
| ApplyingFilter (passes final_order cutoff : Z)
| Resampling (in_sr out_sr : Q) (engine : string)
| StartingPreparation
| StartingRestoration
| InterpretingSpeed (speed_factor from_sr to_sr : Q)
| PreparationFinished
| RestorationFinished.

Record World (row : Type) : Type := mk_World {
  self : AudioProcessor row;
  stdout : list line
}.

Arguments mk_World {row} _ _.
Arguments self {row} _.
Arguments stdout {row} _.

(** ** Computations *)

Definition M (row A : Type) : Type := World row -> outcome A * World row.

Definition ret {row A : Type} (a : A) : M row A :=
  fun w => (Return a, w).

Definition bind {row A B : Type} (m : M row A) (k : A -> M row B) : M row B :=
  fun w =>
    match m w with
    | (Return a, w') => k a w'
    | (Raise e, w') => (Raise e, w')
    end.

Definition raise {row A : Type} (e : exn) : M row A :=
  fun w => (Raise e, w).

(** The result of a library call, an exception of the library included. *)
Definition call {row A : Type} (o : outcome A) : M row A :=
  fun w => (o, w).

(** [self.f] *)
Definition attr {row A : Type} (f : AudioProcessor row -> A) : M row A :=
  fun w => (Return (f (self w)), w).

Definition print {row : Type} (l : line) : M row unit :=
  fun w => (Return tt, mk_World (self w) (stdout w ++ [l])).

(** [x / y] on floats *)
Definition truediv {row : Type} (x y : Q) : M row Q :=
  if Qeq_bool y 0 then raise ZeroDivisionError else ret (x / y)%Q.

Declare Scope py_scope.
Delimit Scope py_scope with py.

Notation "x <- m ;; k" := (bind m (fun x => k))
  (at level 100, m at next level, right associativity) : py_scope.
Notation "m ;; k" := (bind m (fun _ => k))
  (at level 100, right associativity) : py_scope.

Local Open Scope py_scope.
Local Open Scope string_scope.

(** ** [class AudioProcessor] *)

(** [AudioProcessor.__init__] *)
Definition __init__ {row : Type} (o : pyobject row) (sr cutoff : Z)
  : outcome (AudioProcessor row) :=
  match o with
  | NotAnArray =>
      Raise (TypeError "Input data must be a floating-point NumPy array.")
  | Ndarray a =>
      if negb (issubdtype_floating (dtype_of a)) then
        Raise (TypeError "Input data must be a floating-point NumPy array.")
      else
        Return (mk_AudioProcessor a sr cutoff (inject_Z (cutoff * 2)))
  end.

Section Methods.

Context {row coef : Type}.
Variable rt : Runtime row coef.

(** [AudioProcessor._apply_zero_phase_filter] *)
Definition _apply_zero_phase_filter (x : ndarray row) (sr : Z) (passes : Z)
  : M row (ndarray row) :=
  match butter rt, filtfilt rt with
  | Some butter_, Some filtfilt_ =>
      let final_order := 8 * passes in
      cutoff <- attr cutoff_freq ;;
      print (ApplyingFilter passes final_order cutoff) ;;
      let nyquist := ((1 # 2) * inject_Z sr)%Q in
      cutoff <- attr cutoff_freq ;;
      if Qle_bool nyquist (inject_Z cutoff) then ret x
      else
        cutoff <- attr cutoff_freq ;;
        normal_cutoff <- truediv (inject_Z cutoff) nyquist ;;
        ba <- call (butter_ final_order normal_cutoff "low" false) ;;
        call (filtfilt_ (fst ba) (snd ba) x 0)
  | _, _ => raise (ImportError "SciPy is not installed; cannot apply filter.")
  end.

(** [AudioProcessor._resample] *)
Definition _resample (x : ndarray row) (in_sr out_sr : Q) (engine : string)
  : M row (ndarray row) :=
  print (Resampling in_sr out_sr engine) ;;
  if engine =? "scipy" then
    match scipy_resample rt with
    | None => raise (ImportError "SciPy is not installed; cannot use its resampler.")
    | Some scipy_resample_ =>
        q <- truediv (inject_Z (len x) * out_sr)%Q in_sr ;;
        let num_samples := np_round q in
        call (scipy_resample_ x num_samples 0)
    end
  else if engine =? "soxr" then
    match soxr rt with
    | None => raise (ImportError "soxr is not installed; cannot use its resampler.")
    | Some soxr_ => call (soxr_resample soxr_ x in_sr out_sr "VHQ")
    end
  else raise (ValueError ("Unknown resampler engine: " ++ engine)).

(** [AudioProcessor.prepare] *)
Definition prepare (resampler_engine : string) : M row (ndarray row * Z) :=
  print StartingPreparation ;;
  i_sr <- attr intermediate_sr ;;
  o_sr <- attr original_sr ;;
  speed_factor <- truediv i_sr (inject_Z o_sr) ;;
  print (InterpretingSpeed speed_factor (inject_Z o_sr) i_sr) ;;
  x <- attr data ;;
  i_sr <- attr intermediate_sr ;;
  o_sr <- attr original_sr ;;
  processed_data <- _resample x i_sr (inject_Z o_sr) resampler_engine ;;
  processed_data <-
    (if resampler_engine =? "soxr" then
       o_sr <- attr original_sr ;;
       _apply_zero_phase_filter processed_data o_sr 3
     else ret processed_data) ;;
  print PreparationFinished ;;
  o_sr <- attr original_sr ;;
  ret (processed_data, o_sr).

(** [AudioProcessor.restore] *)
Definition restore (resampler_engine : string) : M row (ndarray row * Z) :=
  print StartingRestoration ;;
  x <- attr data ;;
  o_sr <- attr original_sr ;;
  i_sr <- attr intermediate_sr ;;
  data_converted <- _resample x (inject_Z o_sr) i_sr resampler_engine ;;
  final_sr <- attr original_sr ;;
  i_sr <- attr intermediate_sr ;;
  speed_factor <- truediv (inject_Z final_sr) i_sr ;;
  print (InterpretingSpeed speed_factor i_sr (inject_Z final_sr)) ;;
  print RestorationFinished ;;
  ret (data_converted, final_sr).

End Methods.

(** ** [Worker.process_file] in [gui/app.py]

    [proc = AudioProcessor(data, sr, cutoff)] followed by [proc.prepare] or
    [proc.restore], on a console that already shows [out]. *)
Definition process_file {row coef : Type} (rt : Runtime row coef)
    (process_mode : string) (o : pyobject row) (sr cutoff : Z)
    (resampler : string) (out : list line)
  : outcome (ndarray row * Z) * list line :=
  match __init__ o sr cutoff with
  | Raise e => (Raise e, out)
  | Return proc =>
      let res :=
        if process_mode =? "prepare" then prepare rt resampler (mk_World proc out)
        else restore rt resampler (mk_World proc out) in
      (fst res, stdout (snd res))
  end.

(** The round trip of the specification: [prepare] on a buffer, then
    [restore] on a processor built from the prepared buffer, the rate it
    was returned with and the same cutoff. *)
Definition round_trip {row coef : Type} (rt : Runtime row coef)
    (o : pyobject row) (sr cutoff : Z) (resampler : string)
  : outcome (ndarray row * Z) :=
  match process_file rt "prepare" o sr cutoff resampler [] with
  | (Raise e, _) => Raise e
  | (Return (prepared, prepared_sr), out) =>
      fst (process_file rt "restore" (Ndarray prepared) prepared_sr cutoff resampler out)
  end.

(** ** [MainWindow.start_processing] in [gui/app.py]

    The cutoff typed by the user, once parsed: [if cutoff <= 0: raise
    ValueError], caught on the spot with a warning box and a plain
    [return], so that no worker and no processor is created. *)
Definition start_processing_cutoff (cutoff : Z) : option Z :=
  if (cutoff <=? 0)%Z then None else Some cutoff.

Local Close Scope string_scope.

(** ** Computations that only read the receiver

    The outcome and the printed lines are functions of the receiver, which
    is left as it was; the console is only appended to. *)
Definition reads_only {row A : Type} (m : M row A) : Prop :=
  forall s : AudioProcessor row,
  exists (r : outcome A) (lines : list line),
    forall out, m (mk_World s out) = (r, mk_World s (out ++ lines)).

(** ** What the length laws ask of the "precision" resampler

    Given a non-empty floating-point array and a count of at least [lo],
    the resampler returns a floating-point array with exactly that many
    rows.  The specification states this for every count ([lo = 0]);
    counts of at least one ([lo = 1]) are all that the round trip needs,
    and all that [scipy.signal.resample] delivers: asked for no rows it
    raises. *)
Definition exact_length {row : Type} (lo : Z)
    (f : ndarray row -> Z -> Z -> outcome (ndarray row)) : Prop :=
  forall (x : ndarray row) (num axis : Z),
    issubdtype_floating (dtype_of x) = true ->
    0 < len x -> lo <= num ->
    exists y, f x num axis = Return y /\ len y = num /\
              issubdtype_floating (dtype_of y) = true.

(** ** A small runtime to run the kernel on

    Rows are single rational samples.  The resamplers keep the leading
    rows and pad with silence: a count of 0 gives an empty array (the
    resampler of [demo_strict] below refuses it, as SciPy does), a
    negative count or a rate that is not positive is refused.  The filter
    design returns a unit filter and [filtfilt] damps every sample by
    half. *)
Definition resize (num : Z) (x : ndarray Q) : ndarray Q :=
  mk_ndarray (dtype_of x)
    (firstn (Z.to_nat num) (rows x ++ repeat 0%Q (Z.to_nat num))).

Definition demo_scipy_resample (x : ndarray Q) (num axis : Z)
  : outcome (ndarray Q) :=
  if num <? 0 then Raise (ValueError "negative dimensions are not allowed"%string)
  else Return (resize num x).

Definition demo_soxr : soxr_module Q :=
  mk_soxr (fun x in_rate out_rate quality =>
    if Qle_bool in_rate 0 || Qle_bool out_rate 0
    then Raise (ValueError "Sample rate should be > 0"%string)
    else Return (resize (np_round (inject_Z (len x) * out_rate / in_rate)) x)).

Definition demo_butter (N : Z) (Wn : Q) (btype : string) (analog : bool)
  : outcome (list Q * list Q) :=
  if Qle_bool Wn 0 || Qle_bool 1 Wn
  then Raise (ValueError "Digital filter critical frequencies must be 0 < Wn < 1"%string)
  else Return ([1%Q], [1%Q]).

Definition demo_filtfilt (b a : list Q) (x : ndarray Q) (axis : Z)
  : outcome (ndarray Q) :=
  Return (mk_ndarray (dtype_of x) (map (fun s => s * (1 # 2))%Q (rows x))).

Definition demo : Runtime Q Q :=
  mk_runtime (Some demo_scipy_resample) (Some demo_butter)
             (Some demo_filtfilt) (Some demo_soxr).

(** The same machine without SciPy, and without soxr. *)
Definition demo_no_scipy : Runtime Q Q :=
  mk_runtime None None None (Some demo_soxr).

Definition demo_no_soxr : Runtime Q Q :=
  mk_runtime (Some demo_scipy_resample) (Some demo_butter)
             (Some demo_filtfilt) None.

Definition ramp (d : dtype) (n : nat) : ndarray Q :=
  mk_ndarray d (map (fun k => inject_Z (Z.of_nat k)) (seq 1 n)).

(** The small runtime without the two filter primitives. *)
Definition demo_no_filter : Runtime Q Q :=
  mk_runtime (Some demo_scipy_resample) None None (Some demo_soxr).

(** [scipy.signal.resample] itself does not answer a count of 0: it
    raises [ZeroDivisionError].  The same resampler with that refusal, and
    the small runtime with it. *)
Definition demo_scipy_resample_strict (x : ndarray Q) (num axis : Z)
  : outcome (ndarray Q) :=
  if num =? 0 then Raise ZeroDivisionError else demo_scipy_resample x num axis.

Definition demo_strict : Runtime Q Q :=
  mk_runtime (Some demo_scipy_resample_strict) (Some demo_butter)
             (Some demo_filtfilt) (Some demo_soxr).

(** ** [Spectradownshift/config.py]

    A value read by [json.load] or written by [json.dump] is a [json]; a
    Python [dict] is the list of its items in insertion order.  The file
    of a manager is absent, is not UTF-8, is text that is not JSON, or
    holds a value; reading back what was dumped gives the value that was
    dumped.  Failures of the operating system on opening a file that
    exists (permissions, a directory at the path) are not modelled.

    [DEFAULT_PROFILES] is one dictionary object of the module.  The
    configuration made by [_create_default_config] refers to that object
    under ["profiles"], it does not copy it: the process carries the
    current contents of the object, and a configuration says where it
    refers to it. *)
Module Config.

#[warnings="-register-all"]
Inductive json : Type :=
| JNull
| JBool (b : bool)
| JInt (n : Z)
| JFloat (x : PrimFloat.float)
| JStr (s : string)
| JList (l : list json)
| JDict (items : list (string * json)).

(** [d.get(k)] *)
Fixpoint dict_get {V : Type} (k : string) (d : list (string * V)) : option V :=
  match d with
  | [] => None
  | (k', v) :: rest => if String.eqb k' k then Some v else dict_get k rest
  end.

(** [d[k] = v]: an existing key keeps its place, a new one goes last. *)
Fixpoint dict_set {V : Type} (k : string) (v : V) (d : list (string * V))
  : list (string * V) :=
  match d with
  | [] => [(k, v)]
  | (k', v') :: rest =>
      if String.eqb k' k then (k', v) :: rest else (k', v') :: dict_set k v rest
  end.

(** [del d[k]] *)
Definition dict_del {V : Type} (k : string) (d : list (string * V))
  : list (string * V) :=
  filter (fun kv => negb (String.eqb (fst kv) k)) d.

(** [k in d] *)
Definition dict_mem {V : Type} (k : string) (d : list (string * V)) : bool :=
  match dict_get k d with
  | Some _ => true
  | None => false
  end.

(** [list(d.keys())] *)
Definition keys {V : Type} (d : list (string * V)) : list string := map fst d.

Inductive exn : Type :=
| KeyError
| TypeError
| AttributeError
| UnicodeDecodeError.

Inductive result (A : Type) : Type :=
| Returns (a : A)
| Raises (e : exn).

Arguments Returns {A} a.
Arguments Raises {A} e.

(** The module-level names. *)
Definition DEFAULT_PROFILES : list (string * json) :=
  [("Accurate (Scipy)"%string,
    JDict [("resampler"%string, JStr "scipy");
           ("output_format"%string, JStr "wav");
           ("cutoff"%string, JInt 17000)]);
   ("Fast (Soxr)"%string,
    JDict [("resampler"%string, JStr "soxr");
           ("output_format"%string, JStr "flac");
           ("cutoff"%string, JInt 17000)])].

Definition SETTINGS_KEY : string := "_app_settings".

(** What is found at a path: nothing; bytes that are not UTF-8, on which
    reading the file opened with [encoding='utf-8'] raises
    [UnicodeDecodeError]; text that is not JSON, on which [json.load]
    raises [json.JSONDecodeError]; or the text of a JSON value. *)
Inductive file : Type :=
| Missing
| Undecodable
| Corrupt
| Holds (j : json).

Inductive line : Type :=
| WarningCorrupt (path : string)
| CreatingDefaults (path : string)
| ProfileSaved (name : string)
| ProfileDeleted (name : string).

(** What the process holds: the contents of the object [DEFAULT_PROFILES],
    the files by path, and the console. *)
Record Process : Type := mk_Process {
  default_profiles : list (string * json);
  fs : string -> file;
  stdout : list line
}.

(** A value of the top-level dictionary: a value of its own, or the
    object [DEFAULT_PROFILES]. *)
Inductive slot : Type :=
| Val (j : json)
| TheDefaults.

(** [config_data]: a dictionary, or whatever else the file held and the
    test of [_load_or_create] let through. *)
Inductive config : Type :=
| CDict (items : list (string * slot))
| CPlain (j : json).

Record ProfileManager : Type := mk_ProfileManager {
  path : string;
  config_data : config
}.

(** The object behind a slot, as it is now. *)
Definition deref (p : Process) (s : slot) : json :=
  match s with
  | Val j => j
  | TheDefaults => JDict (default_profiles p)
  end.

(** What [json.dump] writes for a configuration. *)
Definition dump (p : Process) (c : config) : json :=
  match c with
  | CDict items => JDict (map (fun kv => (fst kv, deref p (snd kv))) items)
  | CPlain j => j
  end.

(** What [json.load] returned, as a configuration. *)
Definition loaded (j : json) : config :=
  match j with
  | JDict items => CDict (map (fun kv => (fst kv, Val (snd kv))) items)
  | _ => CPlain j
  end.

Definition is_str (k : string) (j : json) : bool :=
  match j with
  | JStr s => String.eqb s k
  | _ => false
  end.

(** [k in j] for a string [k]: a key of a dictionary, an item of a list,
    a part of a string; [TypeError] on anything else. *)
Definition contains (k : string) (j : json) : result bool :=
  match j with
  | JDict items => Returns (dict_mem k items)
  | JList l => Returns (existsb (is_str k) l)
  | JStr s =>
      Returns (match String.index 0 k s with Some _ => true | None => false end)
  | _ => Raises TypeError
  end.

(** [x[k] = v] on the object behind a slot. *)
Definition setitem (k : string) (v : json) (s : slot) (p : Process)
  : result (slot * Process) :=
  match s with
  | TheDefaults =>
      Returns (TheDefaults,
               mk_Process (dict_set k v (default_profiles p)) (fs p) (stdout p))
  | Val (JDict items) => Returns (Val (JDict (dict_set k v items)), p)
  | Val _ => Raises TypeError
  end.

(** [del x[k]] on the object behind a slot. *)
Definition delitem (k : string) (s : slot) (p : Process)
  : result (slot * Process) :=
  match s with
  | TheDefaults =>
      if dict_mem k (default_profiles p) then
        Returns (TheDefaults,
                 mk_Process (dict_del k (default_profiles p)) (fs p) (stdout p))
      else Raises KeyError
  | Val (JDict items) =>
      if dict_mem k items then Returns (Val (JDict (dict_del k items)), p)
      else Raises KeyError
  | Val _ => Raises TypeError
  end.

Definition print (l : line) (p : Process) : Process :=
  mk_Process (default_profiles p) (fs p) (stdout p ++ [l]).

(** [ProfileManager._write_to_file] *)
Definition _write_to_file (path : string) (data : config) (p : Process) : Process :=
  mk_Process (default_profiles p)
    (fun q => if String.eqb q path then Holds (dump p data) else fs p q)
    (stdout p).

(** [{"last_input_path": "", "last_output_path": ""}] *)
Definition default_settings_json : json :=
  JDict [("last_input_path"%string, JStr EmptyString);
         ("last_output_path"%string, JStr EmptyString)].

(** [ProfileManager._create_default_config] *)
Definition _create_default_config (path : string) (p : Process)
  : config * Process :=
  let p := print (CreatingDefaults path) p in
  let default_data :=
    CDict [("profiles"%string, TheDefaults);
           (SETTINGS_KEY, Val default_settings_json)] in
  let p := _write_to_file path default_data p in
  (default_data, p).

(** [ProfileManager._load_or_create] *)
Definition _load_or_create (path : string) (p : Process)
  : result config * Process :=
  let recreate p :=
    let p := print (WarningCorrupt path) p in
    let (c, p) := _create_default_config path p in
    (Returns c, p) in
  match fs p path with
  | Missing =>
      let (c, p) := _create_default_config path p in (Returns c, p)
  | Undecodable => (Raises UnicodeDecodeError, p)
  | Corrupt => recreate p
  | Holds data =>
      match contains "profiles" data with
      | Raises e => (Raises e, p)
      | Returns false => recreate p
      | Returns true =>
          match contains SETTINGS_KEY data with
          | Raises e => (Raises e, p)
          | Returns false => recreate p
          | Returns true => (Returns (loaded data), p)
          end
      end
  end.

(** [ProfileManager.__init__] *)
Definition __init__ (profiles_path : string) (p : Process)
  : result ProfileManager * Process :=
  match _load_or_create profiles_path p with
  | (Returns c, p) => (Returns (mk_ProfileManager profiles_path c), p)
  | (Raises e, p) => (Raises e, p)
  end.

(** [self.config_data.get(key, {})] *)
Definition config_get (key : string) (self : ProfileManager) (p : Process)
  : result json :=
  match config_data self with
  | CDict items =>
      Returns (match dict_get key items with
               | Some s => deref p s
               | None => JDict []
               end)
  | CPlain _ => Raises AttributeError
  end.

(** [ProfileManager.get_profiles] *)
Definition get_profiles (self : ProfileManager) (p : Process) : result json :=
  config_get "profiles" self p.

(** [ProfileManager.get_app_settings] *)
Definition get_app_settings (self : ProfileManager) (p : Process) : result json :=
  config_get SETTINGS_KEY self p.

(** [self.config_data["profiles"]] *)
Definition profiles_slot (self : ProfileManager) : result (list (string * slot) * slot) :=
  match config_data self with
  | CDict items =>
      match dict_get "profiles" items with
      | Some s => Returns (items, s)
      | None => Raises KeyError
      end
  | CPlain _ => Raises TypeError
  end.

(** [ProfileManager.save_profile] *)
Definition save_profile (name : string) (settings : json)
    (self : ProfileManager) (p : Process)
  : result unit * ProfileManager * Process :=
  match profiles_slot self with
  | Raises e => (Raises e, self, p)
  | Returns (items, s) =>
      match setitem name settings s p with
      | Raises e => (Raises e, self, p)
      | Returns (s', p) =>
          let self := mk_ProfileManager (path self)
                        (CDict (dict_set "profiles" s' items)) in
          let p := _write_to_file (path self) (config_data self) p in
          let p := print (ProfileSaved name) p in
          (Returns tt, self, p)
      end
  end.

(** [ProfileManager.delete_profile] *)
Definition delete_profile (name : string) (self : ProfileManager) (p : Process)
  : result bool * ProfileManager * Process :=
  match profiles_slot self with
  | Raises e => (Raises e, self, p)
  | Returns (items, s) =>
      match contains name (deref p s) with
      | Raises e => (Raises e, self, p)
      | Returns false => (Returns false, self, p)
      | Returns true =>
          match delitem name s p with
          | Raises e => (Raises e, self, p)
          | Returns (s', p) =>
              let self := mk_ProfileManager (path self)
                            (CDict (dict_set "profiles" s' items)) in
              let p := _write_to_file (path self) (config_data self) p in
              let p := print (ProfileDeleted name) p in
              (Returns true, self, p)
          end
      end
  end.

(** [ProfileManager.save_app_setting] *)
Definition save_app_setting (key : string) (value : json)
    (self : ProfileManager) (p : Process)
  : result unit * ProfileManager * Process :=
  match config_data self with
  | CPlain _ => (Raises AttributeError, self, p)
  | CDict items =>
      let (s, items) :=
        match dict_get SETTINGS_KEY items with
        | Some s => (s, items)
        | None => (Val (JDict []), dict_set SETTINGS_KEY (Val (JDict [])) items)
        end in
      let self := mk_ProfileManager (path self) (CDict items) in
      match setitem key value s p with
      | Raises e => (Raises e, self, p)
      | Returns (s', p) =>
          let self := mk_ProfileManager (path self)
                        (CDict (dict_set SETTINGS_KEY s' items)) in
          let p := _write_to_file (path self) (config_data self) p in
          (Returns tt, self, p)
      end
  end.

(** The file of the manager holds what [json.dump] writes for its
    configuration as it is now. *)
Definition in_sync (self : ProfileManager) (p : Process) : Prop :=
  fs p (path self) = Holds (dump p (config_data self)).

(** The configuration is a dictionary with the two keys that
    [_load_or_create] asks for. *)
Definition has_keys (self : ProfileManager) : Prop :=
  exists items,
    config_data self = CDict items /\
    dict_mem "profiles" items = true /\ dict_mem SETTINGS_KEY items = true.

(** A process in which the module has just been imported. *)
Definition fresh (files : string -> file) : Process :=
  mk_Process DEFAULT_PROFILES files [].

End Config.

(** ** [Worker] in [gui/app.py]

    [soundfile] is not part of the repository.  [sf.read] is given the
    files as they are now and returns the rows and the rate of a file, or
    raises; called with [dtype='float64'] it returns a [float64] array.
    [sf.write] changes the files, or raises.  A path comes with its [stem]
    and [suffix] as [pathlib] splits them; the name of the file written is
    the string made from the stem and the format, which holds no
    separator.  The log keeps, in the order they happen, the signals
    emitted, the lines the kernel prints and the calls of [soundfile].

    [_is_running] is written by [stop] from another thread; [running i] is
    what the loop reads when it tests the flag for the file of index
    [i]. *)
Module Batch.

Record Path : Type := mk_Path {
  parent : string;
  stem : string;
  suffix : string
}.

(** [file_path.name] *)
Definition name (f : Path) : string := (stem f ++ suffix f)%string.

(** The dictionary [settings] that [start_processing] builds. *)
Record Settings : Type := mk_Settings {
  resampler : string;
  output_format : string;
  cutoff : Z;
  process_mode : string;
  output_folder : string
}.

Inductive failure : Type :=
| KernelError (e : exn)
| SoundFileError (msg : string).

Inductive message : Type :=
| Stopped
| Header (i total : nat)
| AllFinished
| CriticalError (e : failure)
| Processing (file_name : string)
| Saved (file_name : string).

Inductive event (row : Type) : Type :=
| progress_update (m : message)
| finished
| printed (l : line)
| sf_read_call (f : Path)
| sf_write_call (folder file_name : string) (x : ndarray row) (sr : Z)
    (subtype : string).

Arguments progress_update {row} m.
Arguments finished {row}.
Arguments printed {row} l.
Arguments sf_read_call {row} f.
Arguments sf_write_call {row} folder file_name x sr subtype.

Record SoundFile (files row : Type) : Type := mk_SoundFile {
  (** [sf.read(file, dtype='float64')] *)
  sf_read : files -> Path -> string + (list row * Z);
  (** [sf.write(file, data, samplerate, subtype)] *)
  sf_write : files -> string -> string -> ndarray row -> Z -> string
             -> option string * files
}.

Arguments mk_SoundFile {files row} _ _.
Arguments sf_read {files row} _ _ _.
Arguments sf_write {files row} _ _ _ _ _ _ _.

(** [MainWindow.start_processing], from the parsed cutoff to the settings
    handed to the worker; [None] when it returns before starting one. *)
Definition start_processing_settings (quality_index : Z)
    (flac_checked restore_checked : bool) (cutoff_ : Z) (folder : string)
  : option Settings :=
  match start_processing_cutoff cutoff_ with
  | None => None
  | Some c =>
      Some (mk_Settings
              (if quality_index =? 1 then "soxr" else "scipy")
              (if flac_checked then "flac" else "wav")
              c
              (if restore_checked then "restore" else "prepare")
              folder)
  end.

(** How the loop of [Worker.run] is left. *)
Inductive loop_end : Type :=
| Exhausted
| Broken
| Failed (e : failure).

Section Worker.

Context {row coef files : Type}.
Variable rt : Runtime row coef.
Variable sf : SoundFile files row.
Variable settings : Settings.
Variable running : nat -> bool.

(** [Worker.process_file]; [None] when it returns. *)
Definition Worker_process_file (file_path : Path) (st : files)
    (log : list (event row))
  : option failure * files * list (event row) :=
  let log := (log ++ [progress_update (Processing (name file_path));
                      sf_read_call file_path])%list in
  match sf_read sf st file_path with
  | inl msg => (Some (SoundFileError msg), st, log)
  | inr (frames, sr) =>
      let res :=
        process_file rt (process_mode settings)
          (Ndarray (mk_ndarray float64 frames)) sr (cutoff settings)
          (resampler settings) [] in
      let log := (log ++ map printed (snd res))%list in
      match fst res with
      | Raise e => (Some (KernelError e), st, log)
      | Return (processed_data, final_sr) =>
          let output_stem :=
            (stem file_path ++
             (if String.eqb (process_mode settings) "prepare"
              then "_prepared" else "_restored"))%string in
          let output_name :=
            (output_stem ++ "." ++ output_format settings)%string in
          let log :=
            (log ++ [sf_write_call (output_folder settings) output_name
                       processed_data final_sr "PCM_16"])%list in
          match sf_write sf st (output_folder settings) output_name
                  processed_data final_sr "PCM_16" with
          | (Some msg, st) => (Some (SoundFileError msg), st, log)
          | (None, st) =>
              (None, st, (log ++ [progress_update (Saved output_name)])%list)
          end
      end
  end.

(** The [for] loop of [Worker.run], from the file of index [i] on. *)
Fixpoint run_loop (i total : nat) (todo : list Path) (st : files)
    (log : list (event row))
  : loop_end * files * list (event row) :=
  match todo with
  | [] => (Exhausted, st, log)
  | file_path :: rest =>
      if negb (running i) then
        (Broken, st, (log ++ [progress_update Stopped])%list)
      else
        let log := (log ++ [progress_update (Header (i + 1) total)])%list in
        match Worker_process_file file_path st log with
        | (Some e, st, log) => (Failed e, st, log)
        | (None, st, log) => run_loop (S i) total rest st log
        end
  end.

(** [Worker.run] *)
Definition Worker_run (todo : list Path) (st : files)
  : files * list (event row) :=
  let total_files := List.length todo in
  match run_loop 0 total_files todo st [] with
  | (Exhausted, st, log) =>
      (st, (log ++ [progress_update AllFinished; finished])%list)
  | (Broken, st, log) => (st, (log ++ [finished])%list)
  | (Failed e, st, log) =>
      (st, (log ++ [progress_update (CriticalError e); finished])%list)
  end.

End Worker.

(** The name under which [process_file] writes the result for a file. *)
Definition output_name (settings : Settings) (file_path : Path) : string :=
  ((stem file_path ++
    (if String.eqb (process_mode settings) "prepare"
     then "_prepared" else "_restored")) ++ "." ++ output_format settings)%string.

(** The three messages that close a run, and the signal [finished]. *)
Definition is_closing {row : Type} (ev : event row) : bool :=
  match ev with
  | progress_update Stopped
  | progress_update AllFinished
  | progress_update (CriticalError _)
  | finished => true
  | _ => false
  end.

Definition ordinary {row : Type} (ev : event row) : bool :=
  negb (is_closing ev).

(** The names reported as saved, and the files read, in order. *)
Definition saved_names {row : Type} (log : list (event row)) : list string :=
  flat_map (fun ev => match ev with
                      | progress_update (Saved n) => [n]
                      | _ => []
                      end) log.

Definition files_read {row : Type} (log : list (event row)) : list Path :=
  flat_map (fun ev => match ev with
                      | sf_read_call f => [f]
                      | _ => []
                      end) log.

(** The four libraries are installed. *)
Definition libraries_installed {row coef : Type} (rt : Runtime row coef) : Prop :=
  scipy_resample rt <> None /\ soxr rt <> None /\
  butter rt <> None /\ filtfilt rt <> None.

(** An exception that one of the four libraries raises on some call. *)
Definition raised_by_library {row coef : Type} (rt : Runtime row coef)
    (e : exn) : Prop :=
  (exists f x num axis, scipy_resample rt = Some f /\ f x num axis = Raise e) \/
  (exists m x i o q, soxr rt = Some m /\ soxr_resample m x i o q = Raise e) \/
  (exists b n wn bt an, butter rt = Some b /\ b n wn bt an = Raise e) \/
  (exists g b a x axis, filtfilt rt = Some g /\ g b a x axis = Raise e).

(** Settings for a batch on the small runtime. *)
Definition batch_settings : Settings :=
  mk_Settings "scipy" "wav" 1 "prepare" "out".

(** Files as the list of what was written, and a reader that knows one
    clip of four samples at 4 Hz and refuses the files called "bad". *)
Definition demo_sf : SoundFile (list (string * string)) Q :=
  mk_SoundFile
    (fun _ f =>
       if String.eqb (stem f) "bad" then inl "Error opening file"%string
       else inr ([1%Q; 2%Q; 3%Q; 4%Q], 4))
    (fun st folder file_name _ _ _ => (None, (folder, file_name) :: st)).

End Batch.

(** * Properties *)

(** ** Rounding *)

Lemma np_round_lower (x : Q) : (inject_Z (np_round x) - (1 # 2) <= x)%Q.
Proof.
  unfold np_round.
  pose proof (Qfloor_le x) as Hlo.
  destruct (Qcompare_spec (x - inject_Z (Qfloor x)) (1 # 2)) as [H | H | H].
  - destruct (Z.even (Qfloor x)); [lra |].
    rewrite inject_Z_plus. change (inject_Z 1) with 1%Q. lra.
  - lra.
  - rewrite inject_Z_plus. change (inject_Z 1) with 1%Q. lra.
Qed.

Lemma np_round_upper (x : Q) : (x <= inject_Z (np_round x) + (1 # 2))%Q.
Proof.
  unfold np_round.
  pose proof (Qlt_floor x) as Hhi.
  rewrite inject_Z_plus in Hhi. change (inject_Z 1) with 1%Q in Hhi.
  destruct (Qcompare_spec (x - inject_Z (Qfloor x)) (1 # 2)) as [H | H | H].
  - destruct (Z.even (Qfloor x)); [lra |].
    rewrite inject_Z_plus. change (inject_Z 1) with 1%Q. lra.
  - lra.
  - rewrite inject_Z_plus. change (inject_Z 1) with 1%Q. lra.
Qed.

(** The rounded value is an integer nearest to the argument. *)
Lemma np_round_nearest (x : Q) : (Qabs (inject_Z (np_round x) - x) <= 1 # 2)%Q.
Proof.
  apply Qabs_Qle_condition.
  pose proof (np_round_lower x). pose proof (np_round_upper x).
  split; lra.
Qed.

Lemma inject_Z_lt_succ (a b : Z) : (inject_Z a < inject_Z b + 1)%Q -> a <= b.
Proof.
  intros H. change 1%Q with (inject_Z 1) in H.
  rewrite <- inject_Z_plus, <- Zlt_Qlt in H. lia.
Qed.

Lemma inject_Z_pos (a : Z) : 0 < a -> (0 < inject_Z a)%Q.
Proof.
  intros H. change 0%Q with (inject_Z 0). rewrite <- Zlt_Qlt. exact H.
Qed.

(** A real strictly within one half of an integer rounds to it. *)
Lemma np_round_unique (x : Q) (n : Z) :
  (inject_Z n - (1 # 2) < x)%Q -> (x < inject_Z n + (1 # 2))%Q ->
  np_round x = n.
Proof.
  intros Hlo Hhi.
  pose proof (np_round_lower x) as Hl. pose proof (np_round_upper x) as Hu.
  apply Z.le_antisymm; apply inject_Z_lt_succ; lra.
Qed.


(** Stretching a count by a ratio above one and shrinking the rounded
    result by the same ratio gives the count back. *)
Lemma ratio_round_trip (n : Z) (lo hi : Q) :
  (0 < lo)%Q -> (lo < hi)%Q ->
  np_round (inject_Z (np_round (inject_Z n * hi / lo)) * lo / hi) = n.
Proof.
  intros Hlo Hhi.
  set (x := (inject_Z n * hi / lo)%Q).
  pose proof (np_round_lower x) as Hl. pose proof (np_round_upper x) as Hu.
  set (m := inject_Z (np_round x)) in *.
  assert (Ex : (x * lo == inject_Z n * hi)%Q) by (unfold x; field; lra).
  set (y := (m * lo / hi)%Q).
  assert (Ey : (y * hi == m * lo)%Q) by (unfold y; field; lra).
  apply np_round_unique.
  - assert (H : ((inject_Z n - (1 # 2)) * hi < y * hi)%Q) by nra.
    nra.
  - assert (H : (y * hi < (inject_Z n + (1 # 2)) * hi)%Q) by nra.
    nra.
Qed.

Lemma stretched_count_pos (n : Z) (lo hi : Q) :
  0 < n -> (0 < lo)%Q -> (lo < hi)%Q ->
  0 < np_round (inject_Z n * hi / lo).
Proof.
  intros Hn Hlo Hhi.
  set (x := (inject_Z n * hi / lo)%Q).
  pose proof (np_round_upper x) as Hu.
  assert (Ex : (x * lo == inject_Z n * hi)%Q) by (unfold x; field; lra).
  assert (H1 : (1 <= inject_Z n)%Q).
  { change 1%Q with (inject_Z 1). rewrite <- Zle_Qle. lia. }
  assert (Hx : (1 < x)%Q) by nra.
  assert (H0 : (inject_Z 0 < inject_Z (np_round x) + 1)%Q).
  { change (inject_Z 0) with 0%Q. lra. }
  apply inject_Z_lt_succ in H0.
  destruct (Z.eq_dec (np_round x) 0) as [E | E]; [| lia].
  rewrite E in Hu. change (inject_Z 0) with 0%Q in Hu. lra.
Qed.


Lemma Qeq_bool_inject_Z_0 (a : Z) : Qeq_bool (inject_Z a) 0 = (a =? 0).
Proof.
  unfold Qeq_bool, inject_Z; simpl. rewrite Z.mul_1_r.
  destruct (Z.eqb_spec a 0) as [E | E]; [subst; reflexivity |].
  destruct a; reflexivity || contradiction.
Qed.

(** ** The frame of a computation *)

Section Frame.

Context {row : Type}.

Lemma reads_only_ret {A : Type} (a : A) : reads_only (@ret row A a).
Proof.
  intros s. exists (Return a), []. intros out.
  unfold ret. now rewrite app_nil_r.
Qed.

Lemma reads_only_raise {A : Type} (e : exn) : reads_only (@raise row A e).
Proof.
  intros s. exists (Raise e), []. intros out.
  unfold raise. now rewrite app_nil_r.
Qed.

Lemma reads_only_call {A : Type} (o : outcome A) : reads_only (@call row A o).
Proof.
  intros s. exists o, []. intros out.
  unfold call. now rewrite app_nil_r.
Qed.

Lemma reads_only_attr {A : Type} (f : AudioProcessor row -> A) :
  reads_only (attr f).
Proof.
  intros s. exists (Return (f s)), []. intros out.
  unfold attr; simpl. now rewrite app_nil_r.
Qed.

Lemma reads_only_print (l : line) : reads_only (@print row l).
Proof.
  intros s. exists (Return tt), [l]. intros out. reflexivity.
Qed.

Lemma reads_only_truediv (x y : Q) : reads_only (@truediv row x y).
Proof.
  unfold truediv. destruct (Qeq_bool y 0).
  - apply reads_only_raise.
  - apply reads_only_ret.
Qed.

Lemma reads_only_bind {A B : Type} (m : M row A) (k : A -> M row B) :
  reads_only m -> (forall a, reads_only (k a)) -> reads_only (bind m k).
Proof.
  intros Hm Hk s.
  destruct (Hm s) as (r & l & H).
  destruct r as [a | e].
  - destruct (Hk a s) as (r' & l' & H').
    exists r', (l ++ l'). intros out.
    unfold bind. now rewrite H, H', app_assoc.
  - exists (Raise e), l. intros out.
    unfold bind. now rewrite H.
Qed.

End Frame.

Create HintDb frame.
#[export] Hint Resolve reads_only_ret reads_only_raise reads_only_call
  reads_only_attr reads_only_print reads_only_truediv : frame.

Ltac frame :=
  repeat match goal with
         | |- reads_only (bind _ _) => apply reads_only_bind; [| intros ? ]
         | |- reads_only (if ?b then _ else _) => destruct b
         | |- reads_only (match ?o with Some _ => _ | None => _ end) =>
             destruct o
         | |- reads_only (let _ := _ in _) => cbv zeta
         | |- _ => solve [auto with frame]
         end.

Section MethodFrames.

Context {row coef : Type}.
Variable rt : Runtime row coef.

Lemma reads_only_filter (x : ndarray row) (sr passes : Z) :
  reads_only (_apply_zero_phase_filter rt x sr passes).
Proof.
  unfold _apply_zero_phase_filter.
  destruct (butter rt), (filtfilt rt); frame.
Qed.

Lemma reads_only_resample (x : ndarray row) (in_sr out_sr : Q) (engine : string) :
  reads_only (_resample rt x in_sr out_sr engine).
Proof. unfold _resample. frame. Qed.

Hint Resolve reads_only_filter reads_only_resample : frame.

Lemma reads_only_prepare (engine : string) : reads_only (prepare rt engine).
Proof. unfold prepare. frame. Qed.

Lemma reads_only_restore (engine : string) : reads_only (restore rt engine).
Proof. unfold restore. frame. Qed.

End MethodFrames.

(** ** Running the methods *)

Section Runs.

Context {row coef : Type}.
Variable rt : Runtime row coef.

Lemma reads_only_self {A : Type} (m : M row A) (w : World row) :
  reads_only m -> self (snd (m w)) = self w.
Proof.
  intros Hm. destruct w as [s out].
  destruct (Hm s) as (r & l & H). now rewrite H.
Qed.

Lemma reads_only_again {A B : Type} (m1 : M row A) (m2 : M row B) (w : World row) :
  reads_only m1 -> reads_only m2 -> fst (m2 (snd (m1 w))) = fst (m2 w).
Proof.
  intros H1 H2. destruct w as [s out].
  destruct (H1 s) as (r1 & l1 & E1). destruct (H2 s) as (r2 & l2 & E2).
  rewrite E1; simpl. now rewrite !E2.
Qed.

Lemma truediv_nonzero (x y : Q) (w : World row) :
  Qeq_bool y 0 = false -> truediv x y w = (Return (x / y)%Q, w).
Proof. intros H. unfold truediv. now rewrite H. Qed.

Lemma truediv_zero (x y : Q) (w : World row) :
  Qeq_bool y 0 = true -> truediv x y w = (Raise ZeroDivisionError, w).
Proof. intros H. unfold truediv. now rewrite H. Qed.

(** The "precision" branch of [_resample]: the library is called with the
    rounded count, on axis 0. *)
Lemma resample_scipy f (x : ndarray row) (in_sr out_sr : Q) (w : World row) :
  scipy_resample rt = Some f -> Qeq_bool in_sr 0 = false ->
  _resample rt x in_sr out_sr "scipy" w =
    (f x (np_round (inject_Z (len x) * out_sr / in_sr)) 0,
     mk_World (self w) (stdout w ++ [Resampling in_sr out_sr "scipy"])).
Proof.
  intros Hf Hz. unfold _resample, bind, print, call; simpl.
  rewrite Hf. unfold bind. rewrite truediv_nonzero by exact Hz.
  reflexivity.
Qed.

Lemma resample_scipy_zero f (x : ndarray row) (in_sr out_sr : Q) (w : World row) :
  scipy_resample rt = Some f -> Qeq_bool in_sr 0 = true ->
  _resample rt x in_sr out_sr "scipy" w =
    (Raise ZeroDivisionError,
     mk_World (self w) (stdout w ++ [Resampling in_sr out_sr "scipy"])).
Proof.
  intros Hf Hz. unfold _resample, bind, print, call; simpl.
  rewrite Hf. unfold bind. rewrite truediv_zero by exact Hz.
  reflexivity.
Qed.

(** [prepare] with the "precision" engine, past the two divisions. *)
Lemma prepare_scipy f (s : AudioProcessor row) (out : list line) :
  scipy_resample rt = Some f ->
  original_sr s <> 0 -> Qeq_bool (intermediate_sr s) 0 = false ->
  exists lines,
    prepare rt "scipy" (mk_World s out) =
      match f (data s)
              (np_round (inject_Z (len (data s)) * inject_Z (original_sr s)
                         / intermediate_sr s)) 0 with
      | Return y => (Return (y, original_sr s),
                     mk_World s (out ++ lines ++ [PreparationFinished]))
      | Raise e => (Raise e, mk_World s (out ++ lines))
      end.
Proof.
  intros Hf HR HI.
  exists [StartingPreparation;
          InterpretingSpeed (intermediate_sr s / inject_Z (original_sr s))
                            (inject_Z (original_sr s)) (intermediate_sr s);
          Resampling (intermediate_sr s) (inject_Z (original_sr s)) "scipy"].
  unfold prepare, bind at 1 2 3 4 5 6 7 8 9. unfold print at 1, attr; simpl.
  rewrite truediv_nonzero
    by (rewrite Qeq_bool_inject_Z_0; now apply Z.eqb_neq).
  unfold print at 1; simpl.
  rewrite (resample_scipy f) by assumption; simpl.
  destruct (f _ _ _) as [y | e]; unfold bind, ret, print; simpl.
  - now rewrite <- !app_assoc.
  - now rewrite <- !app_assoc.
Qed.

(** [restore] in terms of its resampling step. *)
Lemma restore_unfold (engine : string) (s : AudioProcessor row) (out : list line) :
  exists r lines,
    (forall o, _resample rt (data s) (inject_Z (original_sr s))
                 (intermediate_sr s) engine (mk_World s o)
               = (r, mk_World s (o ++ lines))) /\
    restore rt engine (mk_World s out) =
      match r with
      | Return y =>
          if Qeq_bool (intermediate_sr s) 0 then
            (Raise ZeroDivisionError,
             mk_World s (out ++ StartingRestoration :: lines))
          else
            (Return (y, original_sr s),
             mk_World s
               (out ++ StartingRestoration :: lines ++
                  [InterpretingSpeed
                     (inject_Z (original_sr s) / intermediate_sr s)
                     (intermediate_sr s) (inject_Z (original_sr s));
                   RestorationFinished]))
      | Raise e => (Raise e, mk_World s (out ++ StartingRestoration :: lines))
      end.
Proof.
  destruct (reads_only_resample rt (data s) (inject_Z (original_sr s))
              (intermediate_sr s) engine s) as (r & lines & H).
  exists r, lines. split; [exact H |].
  unfold restore, bind at 1 2 3 4 5. unfold print at 1, attr; simpl.
  rewrite H.
  destruct r as [y | e]; simpl.
  - unfold bind, truediv; simpl.
    destruct (Qeq_bool (intermediate_sr s) 0); unfold raise, ret, print; simpl.
    + now rewrite <- app_assoc.
    + now rewrite <- !app_assoc.
  - now rewrite <- app_assoc.
Qed.

End Runs.

(** * The claims of the specification *)

(** C10. Neither [prepare] nor [restore], with any engine and on any
    runtime, changes a field of the receiver: [data], [original_sr],
    [cutoff_freq] and [intermediate_sr] are after the call what they were
    before it, whether the call returns or raises.  Hence a second call of
    either method on the same instance gives the outcome it would have
    given as a first call. *)
Theorem context_unchanged :
  forall (row coef : Type) (rt : Runtime row coef) (engine engine' : string)
         (w : World row),
    let after_prepare := snd (prepare rt engine w) in
    let after_restore := snd (restore rt engine w) in
    (data (self after_prepare) = data (self w) /\
     original_sr (self after_prepare) = original_sr (self w) /\
     cutoff_freq (self after_prepare) = cutoff_freq (self w) /\
     intermediate_sr (self after_prepare) = intermediate_sr (self w)) /\
    (data (self after_restore) = data (self w) /\
     original_sr (self after_restore) = original_sr (self w) /\
     cutoff_freq (self after_restore) = cutoff_freq (self w) /\
     intermediate_sr (self after_restore) = intermediate_sr (self w)) /\
    fst (prepare rt engine' after_prepare) = fst (prepare rt engine' w) /\
    fst (restore rt engine' after_prepare) = fst (restore rt engine' w) /\
    fst (prepare rt engine' after_restore) = fst (prepare rt engine' w) /\
    fst (restore rt engine' after_restore) = fst (restore rt engine' w).
Proof.
  intros row coef rt engine engine' w after_prepare after_restore.
  pose proof (reads_only_prepare rt engine) as Hp.
  pose proof (reads_only_restore rt engine) as Hr.
  pose proof (reads_only_prepare rt engine') as Hp'.
  pose proof (reads_only_restore rt engine') as Hr'.
  assert (Ep : self after_prepare = self w) by now apply reads_only_self.
  assert (Er : self after_restore = self w) by now apply reads_only_self.
  rewrite Ep, Er.
  repeat split; now apply reads_only_again.
Qed.

(** C4. Whatever the buffer, the context, the engine and the runtime, the
    pair returned by [restore] carries the original rate [original_sr] of
    the receiver, not the intermediate rate, while its buffer is the one
    the resampling step produced for the destination rate
    [intermediate_sr]; and [restore] does return that pair whenever the
    resampling step returns and the intermediate rate is not zero. *)
Theorem restore_rate_tag :
  forall (row coef : Type) (rt : Runtime row coef) (engine : string)
         (w : World row),
    (forall (y : ndarray row) (sr : Z) (w' : World row),
       restore rt engine w = (Return (y, sr), w') ->
       sr = original_sr (self w) /\
       fst (_resample rt (data (self w)) (inject_Z (original_sr (self w)))
              (intermediate_sr (self w)) engine w)
       = Return y) /\
    (forall y : ndarray row,
       fst (_resample rt (data (self w)) (inject_Z (original_sr (self w)))
              (intermediate_sr (self w)) engine w)
       = Return y ->
       Qeq_bool (intermediate_sr (self w)) 0 = false ->
       fst (restore rt engine w) = Return (y, original_sr (self w))).
Proof.
  intros row coef rt engine [s out]; cbn [self].
  destruct (restore_unfold rt engine s out) as (r & lines & Hres & E).
  rewrite E, Hres. cbn [fst]. split.
  - intros y sr w' H.
    destruct r as [y0 | e]; [| discriminate].
    destruct (Qeq_bool (intermediate_sr s) 0); [discriminate |].
    inversion H; subst. split; reflexivity.
  - intros y -> Hz. now rewrite Hz.
Qed.

(** C5. When the cutoff is at or above half the sample rate, and [butter]
    and [filtfilt] are bound, [_apply_zero_phase_filter] returns the buffer
    it was given, for every number of passes; neither filter primitive
    contributes to the result. *)
Theorem filter_noop_at_nyquist :
  forall (row coef : Type) (rt : Runtime row coef) butter_ filtfilt_
         (x : ndarray row) (sr passes : Z) (w : World row),
    butter rt = Some butter_ -> filtfilt rt = Some filtfilt_ ->
    (inject_Z sr / 2 <= inject_Z (cutoff_freq (self w)))%Q ->
    fst (_apply_zero_phase_filter rt x sr passes w) = Return x.
Proof.
  intros row coef rt b f x sr passes w Hb Hf Hc.
  unfold _apply_zero_phase_filter. rewrite Hb, Hf.
  unfold bind, attr, print; simpl.
  assert (Hle : Qle_bool ((1 # 2) * inject_Z sr) (inject_Z (cutoff_freq (self w))) = true).
  { apply Qle_bool_iff.
    assert (E : (inject_Z sr / 2 == (1 # 2) * inject_Z sr)%Q) by field.
    now rewrite <- E. }
  now rewrite Hle.
Qed.

(** C8. [_resample] raises [ImportError] (the specification's
    EngineUnavailable) when the engine is ['scipy'] and
    [scipy_resample] is [None], or the engine is ['soxr'] and [soxr] is
    [None]; it raises [ValueError] (UnsupportedEngine) for every other
    selector; and a buffer it returns was returned by the library of the
    engine that was asked for. *)
Theorem engine_selection_errors :
  forall (row coef : Type) (rt : Runtime row coef) (x : ndarray row)
         (in_sr out_sr : Q) (engine : string) (w : World row),
    (engine = "scipy"%string -> scipy_resample rt = None ->
     fst (_resample rt x in_sr out_sr engine w)
     = Raise (ImportError "SciPy is not installed; cannot use its resampler.")) /\
    (engine = "soxr"%string -> soxr rt = None ->
     fst (_resample rt x in_sr out_sr engine w)
     = Raise (ImportError "soxr is not installed; cannot use its resampler.")) /\
    (engine <> "scipy"%string -> engine <> "soxr"%string ->
     fst (_resample rt x in_sr out_sr engine w)
     = Raise (ValueError ("Unknown resampler engine: " ++ engine))) /\
    (forall y, fst (_resample rt x in_sr out_sr engine w) = Return y ->
       (engine = "scipy"%string /\
        exists f, scipy_resample rt = Some f /\
                  f x (np_round (inject_Z (len x) * out_sr / in_sr)) 0 = Return y) \/
       (engine = "soxr"%string /\
        exists m, soxr rt = Some m /\
                  soxr_resample m x in_sr out_sr "VHQ" = Return y)).
Proof.
  intros row coef rt x in_sr out_sr engine w.
  repeat split.
  - intros -> Hn. unfold _resample, bind, print; simpl. now rewrite Hn.
  - intros -> Hn. unfold _resample, bind, print; simpl. now rewrite Hn.
  - intros H1 H2. unfold _resample, bind, print; simpl.
    apply String.eqb_neq in H1. apply String.eqb_neq in H2.
    now rewrite H1, H2.
  - intros y. unfold _resample, bind at 1, print; simpl.
    destruct (String.eqb_spec engine "scipy") as [-> | N1].
    + destruct (scipy_resample rt) as [f |]; [| discriminate].
      unfold bind, truediv.
      destruct (Qeq_bool in_sr 0); [discriminate |].
      unfold ret, call; simpl. intros H.
      left. split; [reflexivity |]. now exists f.
    + destruct (String.eqb_spec engine "soxr") as [-> | N2]; [| discriminate].
      destruct (soxr rt) as [m |]; [| discriminate].
      unfold call; simpl. intros H.
      right. split; [reflexivity |]. now exists m.
Qed.

Section PrecisionEngine.

Context {row coef : Type}.
Variable rt : Runtime row coef.
Variable f : ndarray row -> Z -> Z -> outcome (ndarray row).
Hypothesis scipy_present : scipy_resample rt = Some f.

Lemma cutoff_rate_nonzero (C : Z) : C <> 0 -> Qeq_bool (inject_Z (C * 2)) 0 = false.
Proof. intros H. rewrite Qeq_bool_inject_Z_0. apply Z.eqb_neq. lia. Qed.

(** [process_file] in mode ['prepare'] with the "precision" engine: the
    outcome is the library's answer to the rounded count. *)
Lemma process_prepare_scipy (x : ndarray row) (R C : Z) (out : list line) :
  issubdtype_floating (dtype_of x) = true -> R <> 0 -> C <> 0 ->
  exists lines,
    process_file rt "prepare" (Ndarray x) R C "scipy" out =
      match f x (np_round (inject_Z (len x) * inject_Z R / inject_Z (2 * C))) 0 with
      | Return y => (Return (y, R), out ++ lines ++ [PreparationFinished])
      | Raise e => (Raise e, out ++ lines)
      end.
Proof.
  intros Hx HR HC.
  unfold process_file, __init__. rewrite Hx.
  cbn [negb String.eqb Ascii.eqb Bool.eqb].
  destruct (prepare_scipy rt f (mk_AudioProcessor x R C (inject_Z (C * 2))) out
              scipy_present HR (cutoff_rate_nonzero C HC)) as (lines & E).
  cbn [data original_sr intermediate_sr] in E.
  exists lines. rewrite E. rewrite (Z.mul_comm 2 C).
  now destruct (f _ _ _).
Qed.

(** The same in mode ['restore']. *)
Lemma process_restore_scipy (x : ndarray row) (R C : Z) (out : list line) :
  issubdtype_floating (dtype_of x) = true -> R <> 0 -> C <> 0 ->
  exists lines lines',
    process_file rt "restore" (Ndarray x) R C "scipy" out =
      match f x (np_round (inject_Z (len x) * inject_Z (2 * C) / inject_Z R)) 0 with
      | Return y => (Return (y, R), out ++ lines ++ lines')
      | Raise e => (Raise e, out ++ lines)
      end.
Proof.
  intros Hx HR HC.
  unfold process_file, __init__. rewrite Hx.
  cbn [negb String.eqb Ascii.eqb Bool.eqb].
  set (s := mk_AudioProcessor x R C (inject_Z (C * 2))).
  destruct (restore_unfold rt "scipy" s out) as (r & lines & Hres & E).
  rewrite E; clear E. cbn [data original_sr intermediate_sr s] in *.
  assert (HRz : Qeq_bool (inject_Z R) 0 = false).
  { rewrite Qeq_bool_inject_Z_0. now apply Z.eqb_neq. }
  pose proof (Hres []) as Hr.
  rewrite (resample_scipy rt f) in Hr by assumption.
  cbn [self stdout app] in Hr. inversion Hr as [[Er El]]. clear Hr Hres.
  subst r lines. rewrite (Z.mul_comm 2 C).
  exists [StartingRestoration; Resampling (inject_Z R) (inject_Z (C * 2)) "scipy"],
         [InterpretingSpeed (inject_Z R / inject_Z (C * 2)) (inject_Z (C * 2)) (inject_Z R);
          RestorationFinished].
  destruct (f _ _ _) as [y | e].
  - rewrite (cutoff_rate_nonzero C HC). reflexivity.
  - reflexivity.
Qed.

End PrecisionEngine.

(** ** Counts of at least one, and counts of zero *)

Lemma np_round_ge_one (x : Q) : (1 # 2 < x)%Q -> 1 <= np_round x.
Proof.
  intros H. pose proof (np_round_upper x) as Hu.
  assert (Hx : (inject_Z 0 < inject_Z (np_round x))%Q).
  { change (inject_Z 0) with 0%Q. lra. }
  rewrite <- Zlt_Qlt in Hx. lia.
Qed.

Lemma np_round_small (x : Q) : (0 <= x)%Q -> (x <= 1 # 2)%Q -> np_round x = 0.
Proof.
  intros H0 H1.
  assert (Hf : Qfloor x = 0).
  { apply Z.le_antisymm.
    - apply Z.lt_succ_r. rewrite Zlt_Qlt.
      apply Qle_lt_trans with x; [apply Qfloor_le |].
      change (inject_Z (Z.succ 0)) with 1%Q. lra.
    - change 0 with (Qfloor 0). now apply Qfloor_resp_le. }
  unfold np_round. rewrite Hf. change (inject_Z 0) with 0%Q.
  destruct (Qcompare (x - 0) (1 # 2)) eqn:Hc; try reflexivity.
  apply Qgt_alt in Hc. lra.
Qed.

(** The count of [prepare] is at least one exactly when [C < N * R], and
    that of [restore] exactly when [R < 4 * N * C]. *)
Lemma prepare_count_cases (N R C : Z) :
  0 < R -> 0 < C ->
  let num := np_round (inject_Z N * inject_Z R / inject_Z (2 * C)) in
  (C < N * R -> 1 <= num) /\ (0 <= N -> N * R <= C -> num = 0).
Proof.
  intros HR HC num.
  assert (Hd : (0 < inject_Z (2 * C))%Q) by (apply inject_Z_pos; lia).
  assert (E : (inject_Z N * inject_Z R == inject_Z (N * R))%Q)
    by now rewrite inject_Z_mult.
  assert (E2 : (inject_Z (2 * C) == 2 * inject_Z C)%Q)
    by (rewrite inject_Z_mult; reflexivity).
  split.
  - intros H. apply np_round_ge_one. apply Qlt_shift_div_l; [exact Hd |].
    rewrite E, E2. rewrite Zlt_Qlt in H. lra.
  - intros HN H. apply np_round_small.
    + apply Qle_shift_div_l; [exact Hd |]. rewrite E.
      assert (H0 : 0 <= N * R) by nia. rewrite Zle_Qle in H0.
      change (inject_Z 0) with 0%Q in H0. lra.
    + apply Qle_shift_div_r; [exact Hd |].
      rewrite E, E2. rewrite Zle_Qle in H. lra.
Qed.

Lemma restore_count_cases (N R C : Z) :
  0 < R -> 0 < C ->
  let num := np_round (inject_Z N * inject_Z (2 * C) / inject_Z R) in
  (R < 4 * N * C -> 1 <= num) /\ (0 <= N -> 4 * N * C <= R -> num = 0).
Proof.
  intros HR HC num.
  assert (Hd : (0 < inject_Z R)%Q) by now apply inject_Z_pos.
  assert (E : (inject_Z N * inject_Z (2 * C) == (1 # 2) * inject_Z (4 * N * C))%Q).
  { rewrite !inject_Z_mult. change (inject_Z 2) with 2%Q.
    change (inject_Z 4) with 4%Q. ring. }
  split.
  - intros H. apply np_round_ge_one. apply Qlt_shift_div_l; [exact Hd |].
    rewrite E. rewrite Zlt_Qlt in H. lra.
  - intros HN H. apply np_round_small.
    + apply Qle_shift_div_l; [exact Hd |]. rewrite E.
      assert (H0 : 0 <= 4 * N * C) by nia. rewrite Zle_Qle in H0.
      change (inject_Z 0) with 0%Q in H0. lra.
    + apply Qle_shift_div_r; [exact Hd |].
      rewrite E. rewrite Zle_Qle in H. lra.
Qed.

(** C2, as the code has it.  For a non-empty floating-point buffer of
    length N, a positive original rate R and a cutoff C > 0, within the
    range in which the doubles of the code are exact (N * R below 2^52,
    2C at most 2^53), [prepare] with the ['scipy'] engine asks
    [scipy_resample] for [round(N * R / (2C))] rows (source rate 2C,
    destination rate R).  That count is at least one exactly when
    C < N * R; the resampler then delivers it and the call returns a buffer
    of exactly that many rows, tagged with R.  When N * R <= C the count is
    0, and the outcome is whatever the resampler makes of a count of 0:
    the law does not hold for every non-empty buffer. *)
Theorem prepare_length :
  forall (row coef : Type) (rt : Runtime row coef) f (x : ndarray row)
         (R C : Z) (out : list line),
    scipy_resample rt = Some f -> exact_length 1 f ->
    issubdtype_floating (dtype_of x) = true ->
    0 < len x -> 0 < R -> 0 < C ->
    len x * R < 2 ^ 52 -> 2 * C <= 2 ^ 53 ->
    let num := np_round (inject_Z (len x) * inject_Z R / inject_Z (2 * C)) in
    (C < len x * R ->
     exists y,
       fst (process_file rt "prepare" (Ndarray x) R C "scipy" out)
       = Return (y, R) /\
       len y = num /\ 1 <= num /\
       (Qabs (inject_Z (len y)
              - inject_Z (len x) * inject_Z R / inject_Z (2 * C))
        <= 1 # 2)%Q) /\
    (len x * R <= C ->
     num = 0 /\
     fst (process_file rt "prepare" (Ndarray x) R C "scipy" out)
     = match f x 0 0 with
       | Return y => Return (y, R)
       | Raise e => Raise e
       end).
Proof.
  intros row coef rt f x R C out Hf Hlen Hx HN HR HC _ _ num.
  destruct (process_prepare_scipy rt f Hf x R C out Hx) as (lines & E); try lia.
  fold num in E.
  destruct (prepare_count_cases (len x) R C HR HC) as [Hone Hzero].
  fold num in Hone, Hzero.
  split.
  - intros H. specialize (Hone H).
    destruct (Hlen x num 0 Hx HN Hone) as (y & Ey & Ly & _).
    rewrite Ey in E. exists y. rewrite E.
    repeat split; try assumption.
    rewrite Ly. apply np_round_nearest.
  - intros H. assert (H0 : num = 0) by (apply Hzero; lia).
    split; [exact H0 |].
    rewrite E, H0. now destruct (f x 0 0).
Qed.

(** C3, as the code has it.  For a non-empty floating-point buffer of
    length N, a positive original rate R and a cutoff C > 0, within the
    range in which the doubles of the code are exact (N * 2C below 2^52,
    R at most 2^53), [restore] with the ['scipy'] engine asks
    [scipy_resample] for [round(N * (2C) / R)] rows (declared source rate
    R, destination rate 2C).  That count is at least one exactly when
    R < 4 * N * C; the resampler then delivers it and the call returns a
    buffer of exactly that many rows, tagged with R.  When 4 * N * C <= R
    the count is 0, and the outcome is whatever the resampler makes of a
    count of 0: the law does not hold for every non-empty buffer. *)
Theorem restore_length :
  forall (row coef : Type) (rt : Runtime row coef) f (x : ndarray row)
         (R C : Z) (out : list line),
    scipy_resample rt = Some f -> exact_length 1 f ->
    issubdtype_floating (dtype_of x) = true ->
    0 < len x -> 0 < R -> 0 < C ->
    len x * (2 * C) < 2 ^ 52 -> R <= 2 ^ 53 ->
    let num := np_round (inject_Z (len x) * inject_Z (2 * C) / inject_Z R) in
    (R < 4 * len x * C ->
     exists y,
       fst (process_file rt "restore" (Ndarray x) R C "scipy" out)
       = Return (y, R) /\
       len y = num /\ 1 <= num /\
       (Qabs (inject_Z (len y)
              - inject_Z (len x) * inject_Z (2 * C) / inject_Z R)
        <= 1 # 2)%Q) /\
    (4 * len x * C <= R ->
     num = 0 /\
     fst (process_file rt "restore" (Ndarray x) R C "scipy" out)
     = match f x 0 0 with
       | Return y => Return (y, R)
       | Raise e => Raise e
       end).
Proof.
  intros row coef rt f x R C out Hf Hlen Hx HN HR HC _ _ num.
  destruct (process_restore_scipy rt f Hf x R C out Hx) as (l1 & l2 & E); try lia.
  fold num in E.
  destruct (restore_count_cases (len x) R C HR HC) as [Hone Hzero].
  fold num in Hone, Hzero.
  split.
  - intros H. specialize (Hone H).
    destruct (Hlen x num 0 Hx HN Hone) as (y & Ey & Ly & _).
    rewrite Ey in E. exists y. rewrite E.
    repeat split; try assumption.
    rewrite Ly. apply np_round_nearest.
  - intros H. assert (H0 : num = 0) by (apply Hzero; lia).
    split; [exact H0 |].
    rewrite E, H0. now destruct (f x 0 0).
Qed.

(** C1. For a non-empty floating-point buffer of length N, an original
    rate R and a cutoff C with 0 < C < R/2, [restore] applied to what
    [prepare] returned (same R, C and the ['scipy'] engine, whose resampler
    delivers every count of at least one that it is asked for) returns a
    buffer, tagged with R, whose length is within one of N. *)
Theorem round_trip_length :
  forall (row coef : Type) (rt : Runtime row coef) f (x : ndarray row)
         (R C : Z),
    scipy_resample rt = Some f -> exact_length 1 f ->
    issubdtype_floating (dtype_of x) = true ->
    0 < len x -> 0 < C -> (inject_Z C < inject_Z R / 2)%Q ->
    exists z,
      round_trip rt (Ndarray x) R C "scipy" = Return (z, R) /\
      Z.abs (len z - len x) <= 1.
Proof.
  intros row coef rt f x R C Hf Hlen Hx HN HC HCR.
  assert (HlohiQ : (inject_Z (2 * C) < inject_Z R)%Q).
  { assert (E : (inject_Z (2 * C) == 2 * inject_Z C)%Q).
    { rewrite inject_Z_mult. reflexivity. }
    assert (E' : (inject_Z R / 2 == (1 # 2) * inject_Z R)%Q) by field.
    rewrite E. rewrite E' in HCR. lra. }
  assert (HloQ : (0 < inject_Z (2 * C))%Q) by (apply inject_Z_pos; lia).
  assert (HR : 0 < R).
  { rewrite Zlt_Qlt. change (inject_Z 0) with 0%Q. lra. }
  unfold round_trip.
  destruct (process_prepare_scipy rt f Hf x R C [] Hx) as (lines & E); try lia.
  set (num := np_round (inject_Z (len x) * inject_Z R / inject_Z (2 * C))) in *.
  assert (Hnum : 0 < num) by now apply stretched_count_pos.
  destruct (Hlen x num 0 Hx HN ltac:(lia)) as (y & Ey & Ly & Fy).
  rewrite Ey in E. rewrite E.
  destruct (process_restore_scipy rt f Hf y R C ([] ++ lines ++ [PreparationFinished]) Fy)
    as (l1 & l2 & E2); try lia.
  rewrite E2. rewrite Ly.
  unfold num at 1. rewrite ratio_round_trip by assumption.
  destruct (Hlen y (len x) 0 Fy ltac:(lia) ltac:(lia)) as (z & Ez & Lz & _).
  rewrite Ez; simpl.
  exists z. split; [reflexivity |]. lia.
Qed.

(** ** What [prepare] prints and returns *)

Section PrepareSteps.

Context {row coef : Type}.
Variable rt : Runtime row coef.

(** [_resample] prints its one line whatever happens next. *)
Lemma resample_run (x : ndarray row) (in_sr out_sr : Q) (engine : string)
    (s : AudioProcessor row) :
  exists r, forall o,
    _resample rt x in_sr out_sr engine (mk_World s o)
    = (r, mk_World s (o ++ [Resampling in_sr out_sr engine])).
Proof.
  unfold _resample, bind at 1, print; cbn [self stdout].
  destruct (String.eqb engine "scipy").
  - destruct (scipy_resample rt) as [f |].
    + unfold bind, truediv, call.
      destruct (Qeq_bool in_sr 0); eexists; intros o; reflexivity.
    + eexists; intros o; reflexivity.
  - destruct (String.eqb engine "soxr").
    + destruct (soxr rt); eexists; intros o; reflexivity.
    + eexists; intros o; reflexivity.
Qed.

(** The filter either refuses to start, printing nothing, or prints its
    line and goes on. *)
Lemma filter_run (x : ndarray row) (sr passes : Z) (s : AudioProcessor row) :
  exists r lines,
    (forall o, _apply_zero_phase_filter rt x sr passes (mk_World s o)
               = (r, mk_World s (o ++ lines))) /\
    ((lines = [] /\ exists msg, r = Raise (ImportError msg)) \/
     lines = [ApplyingFilter passes (8 * passes) (cutoff_freq s)]).
Proof.
  unfold _apply_zero_phase_filter.
  destruct (butter rt) as [b |], (filtfilt rt) as [g |];
    try (exists (Raise (ImportError "SciPy is not installed; cannot apply filter.")), [];
         split; [intros o; unfold raise; now rewrite app_nil_r
                | left; split; [reflexivity | now eexists]]).
  unfold bind at 1 2 3, attr, print; cbn [self stdout].
  destruct (Qle_bool _ _).
  - eexists; eexists; split; [intros o; reflexivity | now right].
  - unfold bind, truediv, call, raise, ret; cbn [self].
    destruct (Qeq_bool _ 0).
    + eexists; eexists; split; [intros o; reflexivity | now right].
    + destruct (b _ _ _ _);
        eexists; eexists; (split; [intros o; reflexivity | now right]).
Qed.

(** [prepare], step by step. *)
Lemma prepare_unfold (engine : string) (s : AudioProcessor row) :
  original_sr s <> 0 ->
  let header :=
    [StartingPreparation;
     InterpretingSpeed (intermediate_sr s / inject_Z (original_sr s))
       (inject_Z (original_sr s)) (intermediate_sr s);
     Resampling (intermediate_sr s) (inject_Z (original_sr s)) engine] in
  forall r,
    (forall o, _resample rt (data s) (intermediate_sr s)
                 (inject_Z (original_sr s)) engine (mk_World s o)
               = (r, mk_World s (o ++ [Resampling (intermediate_sr s)
                                         (inject_Z (original_sr s)) engine]))) ->
    forall out,
      prepare rt engine (mk_World s out) =
        match r with
        | Raise e => (Raise e, mk_World s (out ++ header))
        | Return y =>
            if String.eqb engine "soxr" then
              match _apply_zero_phase_filter rt y (original_sr s) 3
                      (mk_World s (out ++ header)) with
              | (Return z, w) =>
                  (Return (z, original_sr (self w)),
                   mk_World (self w) (stdout w ++ [PreparationFinished]))
              | (Raise e, w) => (Raise e, w)
              end
            else
              (Return (y, original_sr s),
               mk_World s (out ++ header ++ [PreparationFinished]))
        end.
Proof.
  intros HR header r Hres out.
  unfold prepare, bind at 1 2 3 4 5 6 7 8 9. unfold print at 1, attr; simpl.
  rewrite truediv_nonzero
    by (rewrite Qeq_bool_inject_Z_0; now apply Z.eqb_neq).
  unfold print at 1; cbn [self stdout].
  rewrite Hres. rewrite <- !app_assoc. cbn [app]. fold header.
  destruct r as [y | e]; [| reflexivity].
  destruct (String.eqb engine "soxr").
  - unfold bind at 1 2. cbn [self].
    destruct (_apply_zero_phase_filter rt y (original_sr s) 3 _) as [[z | e] w];
      reflexivity.
  - unfold bind, ret, print; cbn [self stdout].
    now rewrite <- !app_assoc.
Qed.

End PrepareSteps.

(** C9. Once the resampling step of [prepare] has returned a buffer [y]:
    with the ['soxr'] engine the outcome of [prepare] is the outcome of
    [_apply_zero_phase_filter] on [y] at rate [original_sr] with 3 passes
    (cutoff [cutoff_freq]), tagged with [original_sr]; with any other
    engine that gets this far, ['scipy'] in particular, [y] itself is
    returned.  A call of [prepare] that returns has printed the filter's
    line, for 3 passes, order 24 and the cutoff, if and only if the engine
    is ['soxr']. *)
Theorem prepare_filters_iff_soxr :
  forall (row coef : Type) (rt : Runtime row coef) (engine : string)
         (s : AudioProcessor row) (out : list line) (y : ndarray row),
    original_sr s <> 0 ->
    fst (_resample rt (data s) (intermediate_sr s) (inject_Z (original_sr s))
           engine (mk_World s out)) = Return y ->
    (engine = "soxr"%string ->
     fst (prepare rt engine (mk_World s out)) =
       match fst (_apply_zero_phase_filter rt y (original_sr s) 3 (mk_World s out)) with
       | Return z => Return (z, original_sr s)
       | Raise e => Raise e
       end) /\
    (engine <> "soxr"%string ->
     fst (prepare rt engine (mk_World s out)) = Return (y, original_sr s)) /\
    (forall z sr w',
       prepare rt engine (mk_World s out) = (Return (z, sr), w') ->
       exists lines,
         stdout w' = (out ++ lines)%list /\
         forall p o c,
           In (ApplyingFilter p o c) lines <->
           engine = "soxr"%string /\ p = 3 /\ o = 24 /\ c = cutoff_freq s).
Proof.
  intros row coef rt engine s out y HR Hy.
  destruct (resample_run rt (data s) (intermediate_sr s)
              (inject_Z (original_sr s)) engine s) as (r & Hres).
  rewrite Hres in Hy. cbn [fst] in Hy. subst r.
  pose proof (prepare_unfold rt engine s HR (Return y) Hres out) as E.
  cbv zeta in E.
  set (header := [StartingPreparation;
                  InterpretingSpeed (intermediate_sr s / inject_Z (original_sr s))
                    (inject_Z (original_sr s)) (intermediate_sr s);
                  Resampling (intermediate_sr s) (inject_Z (original_sr s)) engine]) in *.
  destruct (filter_run rt y (original_sr s) 3 s) as (rf & fl & Hf & Hfl).
  repeat split.
  - intros ->. rewrite E. cbn [String.eqb Ascii.eqb Bool.eqb].
    rewrite !Hf. cbn [fst].
    destruct rf; reflexivity.
  - intros Hne. rewrite E. apply String.eqb_neq in Hne. now rewrite Hne.
  - intros z sr w' H. rewrite E in H.
    destruct (String.eqb_spec engine "soxr") as [-> | Hne].
    + rewrite Hf in H. destruct rf as [z0 | e]; [| discriminate].
      destruct Hfl as [(_ & msg & Hmsg) | Hfl]; [discriminate |].
      subst fl. inversion H; subst. cbn [stdout].
      exists (header ++ [ApplyingFilter 3 (8 * 3) (cutoff_freq s)] ++ [PreparationFinished])%list.
      split; [now rewrite <- !app_assoc |].
      intros p o c. split.
      * intros Hin. cbn in Hin.
        destruct Hin as [Hin | [Hin | [Hin | [Hin | [Hin | []]]]]];
          try discriminate.
        inversion Hin; subst. repeat split; reflexivity.
      * intros (_ & -> & -> & ->). cbn. tauto.
    + inversion H; subst. cbn [stdout].
      exists (header ++ [PreparationFinished])%list.
      split; [reflexivity |].
      intros p o c. split.
      * intros Hin. cbn in Hin.
        destruct Hin as [Hin | [Hin | [Hin | [Hin | []]]]]; discriminate.
      * intros (Heq & _). contradiction.
Qed.

(** ** Validation of the inputs *)

Lemma np_round_zero_count (a b : Q) : np_round (inject_Z 0 * a / b) = 0.
Proof.
  assert (E : (inject_Z 0 * a / b == 0)%Q) by (unfold Qdiv; ring).
  apply np_round_unique; rewrite E; reflexivity.
Qed.

(** C7, as the code has it.  The constructor raises [TypeError] (the
    specification's InvalidInput) when [data] is not a NumPy array or its
    dtype is not a floating-point one, so that [process_file] fails before
    anything is printed or resampled.  Every floating-point array is
    accepted, whatever its length: there is no test for an empty buffer,
    which the "precision" branch hands to [scipy_resample] with a count
    of 0.  (The rate and the doubled cutoff are taken up to 2^53, where
    [float] is exact.) *)
Theorem non_floating_buffer_rejected :
  forall (row coef : Type) (rt : Runtime row coef) (R C : Z)
         (mode engine : string) (out : list line),
    process_file rt mode NotAnArray R C engine out
    = (Raise (TypeError "Input data must be a floating-point NumPy array."), out) /\
    (forall a : ndarray row,
       issubdtype_floating (dtype_of a) = false ->
       process_file rt mode (Ndarray a) R C engine out
       = (Raise (TypeError "Input data must be a floating-point NumPy array."), out)) /\
    (forall a : ndarray row,
       issubdtype_floating (dtype_of a) = true ->
       Z.abs (2 * C) <= 2 ^ 53 ->
       __init__ (Ndarray a) R C
       = Return (mk_AudioProcessor a R C (inject_Z (C * 2)))) /\
    (forall (a : ndarray row) f,
       issubdtype_floating (dtype_of a) = true -> len a = 0 ->
       scipy_resample rt = Some f -> R <> 0 -> C <> 0 ->
       Z.abs R <= 2 ^ 53 -> Z.abs (2 * C) <= 2 ^ 53 ->
       fst (process_file rt "prepare" (Ndarray a) R C "scipy" out)
       = match f a 0 0 with
         | Return y => Return (y, R)
         | Raise e => Raise e
         end).
Proof.
  intros row coef rt R C mode engine out.
  split; [reflexivity |].
  split; [| split].
  - intros a Ha. unfold process_file, __init__. now rewrite Ha.
  - intros a Ha _. unfold __init__. now rewrite Ha.
  - intros a f Ha Hlen Hf HR HC _ _.
    destruct (process_prepare_scipy rt f Hf a R C out Ha HR HC) as (lines & E).
    rewrite E, Hlen, np_round_zero_count.
    now destruct (f a 0 0).
Qed.

(** C6, as the code has it.  The kernel has no test on the cutoff: the
    constructor accepts it whatever its sign (the rate and the doubled
    cutoff are taken up to 2^53 in absolute value, where [float] is
    exact).  With a cutoff of 0 the intermediate
    rate is 0.0, and the failure is the [ZeroDivisionError] of a division
    by it: in [prepare] with the "precision" engine when the sample count
    is computed, in [restore] when the speed factor is computed, unless the
    resampling step has raised before.  With a negative cutoff the
    "precision" branch of [prepare] asks the library for the rounded
    count as it does for any other cutoff.  Cutoffs that are not positive
    are turned away earlier, by [start_processing] in the GUI. *)
Theorem zero_cutoff_division_error :
  forall (row coef : Type) (rt : Runtime row coef) (x : ndarray row)
         (R : Z) (out : list line),
    issubdtype_floating (dtype_of x) = true ->
    Z.abs R <= 2 ^ 53 ->
    (forall C, Z.abs (2 * C) <= 2 ^ 53 ->
               __init__ (Ndarray x) R C
               = Return (mk_AudioProcessor x R C (inject_Z (C * 2)))) /\
    (forall f, scipy_resample rt = Some f ->
       fst (process_file rt "prepare" (Ndarray x) R 0 "scipy" out)
       = Raise ZeroDivisionError) /\
    (forall engine,
       exists e,
         fst (process_file rt "restore" (Ndarray x) R 0 engine out) = Raise e /\
         (e = ZeroDivisionError \/
          fst (_resample rt x (inject_Z R) 0 engine
                 (mk_World (mk_AudioProcessor x R 0 0) out)) = Raise e)) /\
    (forall C f, C < 0 -> R <> 0 ->
       Z.abs (2 * C) <= 2 ^ 53 -> len x * Z.abs R < 2 ^ 52 ->
       scipy_resample rt = Some f ->
       fst (process_file rt "prepare" (Ndarray x) R C "scipy" out)
       = match f x (np_round (inject_Z (len x) * inject_Z R / inject_Z (2 * C))) 0 with
         | Return y => Return (y, R)
         | Raise e => Raise e
         end) /\
    (forall C, start_processing_cutoff C = None <-> C <= 0).
Proof.
  intros row coef rt x R out Hx _.
  split; [| split; [| split; [| split]]].
  - intros C _. unfold __init__. now rewrite Hx.
  - intros f Hf. unfold process_file, __init__. rewrite Hx.
    cbn [negb String.eqb Ascii.eqb Bool.eqb fst].
    change (inject_Z (0 * 2)) with 0%Q.
    set (s := mk_AudioProcessor x R 0 0).
    unfold prepare, bind at 1 2 3 4 5 6 7 8 9. unfold print at 1, attr.
    cbn [self stdout s intermediate_sr original_sr data].
    unfold truediv at 1.
    destruct (Qeq_bool (inject_Z R) 0); [reflexivity |].
    unfold ret at 1, print at 1. cbn [self stdout].
    rewrite (resample_scipy_zero rt f) by (assumption || reflexivity).
    reflexivity.
  - intros engine. unfold process_file, __init__. rewrite Hx.
    cbn [negb String.eqb Ascii.eqb Bool.eqb fst].
    change (inject_Z (0 * 2)) with 0%Q.
    set (s := mk_AudioProcessor x R 0 0).
    destruct (restore_unfold rt engine s out) as (r & lines & Hres & E).
    rewrite E. cbn [s intermediate_sr original_sr data] in *.
    rewrite Hres. cbn [fst].
    destruct r as [y | e].
    + exists ZeroDivisionError. split; [reflexivity | now left].
    + exists e. split; [reflexivity | now right].
  - intros C f HC HR _ _ Hf.
    destruct (process_prepare_scipy rt f Hf x R C out Hx HR) as (lines & E);
      [lia |].
    rewrite E. now destruct (f _ _ _).
  - intros C. unfold start_processing_cutoff.
    destruct (Z.leb_spec C 0); split; intros; (reflexivity || lia || discriminate).
Qed.

(** * The kernel at work on the small runtime *)

Lemma demo_exact_length (lo : Z) :
  0 <= lo -> exact_length lo demo_scipy_resample.
Proof.
  intros Hlo x num axis Hx _ Hnum.
  unfold demo_scipy_resample.
  destruct (Z.ltb_spec num 0) as [Hneg | _]; [lia |].
  exists (resize num x). split; [reflexivity |]. split; [| exact Hx].
  unfold len, resize; cbn [rows].
  rewrite length_firstn, length_app, repeat_length. lia.
Qed.

Lemma demo_strict_exact_length : exact_length 1 demo_scipy_resample_strict.
Proof.
  intros x num axis Hx HN Hnum.
  unfold demo_scipy_resample_strict.
  destruct (Z.eqb_spec num 0) as [E | _]; [lia |].
  apply (demo_exact_length 1); (lia || assumption).
Qed.

(** The rate of a compact disc and the default cutoff of the profiles. *)
Example cd_rate_counts :
  np_round (inject_Z 44100 * inject_Z 44100 / inject_Z (2 * 17000)) = 57200 /\
  np_round (inject_Z 57200 * inject_Z (2 * 17000) / inject_Z 44100) = 44100.
Proof. split; reflexivity. Qed.

(** The doubles of the code give the same counts there, and on small
    inputs with a tie. *)
Example cd_rate_counts_binary64 :
  prepare_count_binary64 44100 44100 17000
  = Some (np_round (inject_Z 44100 * inject_Z 44100 / inject_Z (2 * 17000))) /\
  restore_count_binary64 57200 44100 17000
  = Some (np_round (inject_Z 57200 * inject_Z (2 * 17000) / inject_Z 44100)) /\
  prepare_count_binary64 1 5 1 = Some (np_round (inject_Z 1 * inject_Z 5 / inject_Z 2)) /\
  prepare_count_binary64 1 3 1 = Some (np_round (inject_Z 1 * inject_Z 3 / inject_Z 2)) /\
  prepare_count_binary64 1 1 1 = Some 0 /\
  restore_count_binary64 1 44100 10000 = Some 0.
Proof. repeat split; vm_compute; reflexivity. Qed.

(** Next to a tie, with a numerator of about 2^50: the quotient is
    [k + 1/2] plus or minus [1 / (2^26 + 2)], and the doubles round it as
    the rationals do. *)
Example counts_next_to_a_tie :
  let k := 2 ^ 24 + 12345 in
  let C := 2 ^ 25 + 1 in
  prepare_count_binary64 ((2 * k + 1) * C + 1) 1 C = Some (k + 1) /\
  np_round (inject_Z ((2 * k + 1) * C + 1) * inject_Z 1 / inject_Z (2 * C)) = k + 1 /\
  prepare_count_binary64 ((2 * k + 1) * C - 1) 1 C = Some k /\
  np_round (inject_Z ((2 * k + 1) * C - 1) * inject_Z 1 / inject_Z (2 * C)) = k /\
  restore_count_binary64 (2 ^ 50) (2 ^ 26 + 1) 1
  = Some (np_round (inject_Z (2 ^ 50) * inject_Z (2 * 1) / inject_Z (2 ^ 26 + 1))).
Proof. repeat split; vm_compute; reflexivity. Qed.

(** Beyond 2^53 the two part: [float(2^54 + 2)] is [2^54], and a cutoff
    from [2^1023 - 2^969] on cannot be converted at all. *)
Example counts_beyond_the_doubles :
  restore_count_binary64 3 4 (2 ^ 53 + 1) = Some 13510798882111488 /\
  np_round (inject_Z 3 * inject_Z (2 * (2 ^ 53 + 1)) / inject_Z 4)
  = 13510798882111490 /\
  float_of_int ((2 ^ 1023 - 2 ^ 969) * 2) = None /\
  float_of_int ((2 ^ 1023 - 2 ^ 969 - 1) * 2) <> None.
Proof. repeat split; vm_compute; (reflexivity || discriminate). Qed.

(** Ties go to the even neighbour, also below zero. *)
Example np_round_ties :
  np_round (5 # 2) = 2 /\ np_round (3 # 2) = 2 /\
  np_round (-1 # 2) = 0 /\ np_round (-3 # 2) = -2.
Proof. repeat split; reflexivity. Qed.

Example prepare_scipy_run :
  process_file demo "prepare" (Ndarray (ramp float64 4)) 4 1 "scipy" [] =
    (Return (resize 8 (ramp float64 4), 4),
     [StartingPreparation; InterpretingSpeed (2 # 4) 4 2;
      Resampling 2 4 "scipy"; PreparationFinished]).
Proof. reflexivity. Qed.

Example prepare_soxr_run :
  process_file demo "prepare" (Ndarray (ramp float64 4)) 4 1 "soxr" [] =
    (Return (mk_ndarray float64
               [1 # 2; 2 # 2; 3 # 2; 4 # 2; 0 # 2; 0 # 2; 0 # 2; 0 # 2]%Q, 4),
     [StartingPreparation; InterpretingSpeed (2 # 4) 4 2;
      Resampling 2 4 "soxr"; ApplyingFilter 3 24 1; PreparationFinished]).
Proof. reflexivity. Qed.

Lemma round_trip_length_witness :
  exists z,
    round_trip demo (Ndarray (ramp float64 5)) 7 2 "scipy" = Return (z, 7) /\
    Z.abs (len z - len (ramp float64 5)) <= 1.
Proof.
  apply (round_trip_length Q Q demo demo_scipy_resample (ramp float64 5) 7 2).
  - reflexivity.
  - apply demo_exact_length. lia.
  - reflexivity.
  - reflexivity.
  - lia.
  - reflexivity.
Defined.

Lemma prepare_length_witness :
  exists y,
    fst (process_file demo_strict "prepare" (Ndarray (ramp float64 4)) 4 1 "scipy" [])
    = Return (y, 4) /\
    len y = np_round (inject_Z (len (ramp float64 4)) * inject_Z 4 / inject_Z (2 * 1)) /\
    1 <= np_round (inject_Z (len (ramp float64 4)) * inject_Z 4 / inject_Z (2 * 1)) /\
    (Qabs (inject_Z (len y)
           - inject_Z (len (ramp float64 4)) * inject_Z 4 / inject_Z (2 * 1))
     <= 1 # 2)%Q.
Proof.
  destruct (prepare_length Q Q demo_strict demo_scipy_resample_strict
              (ramp float64 4) 4 1 []) as [H _].
  - reflexivity.
  - exact demo_strict_exact_length.
  - reflexivity.
  - reflexivity.
  - lia.
  - lia.
  - vm_compute; reflexivity.
  - vm_compute; discriminate.
  - apply H. vm_compute; reflexivity.
Defined.

Lemma restore_length_witness :
  exists y,
    fst (process_file demo_strict "restore" (Ndarray (ramp float64 8)) 4 1 "scipy" [])
    = Return (y, 4) /\
    len y = np_round (inject_Z (len (ramp float64 8)) * inject_Z (2 * 1) / inject_Z 4) /\
    1 <= np_round (inject_Z (len (ramp float64 8)) * inject_Z (2 * 1) / inject_Z 4) /\
    (Qabs (inject_Z (len y)
           - inject_Z (len (ramp float64 8)) * inject_Z (2 * 1) / inject_Z 4)
     <= 1 # 2)%Q.
Proof.
  destruct (restore_length Q Q demo_strict demo_scipy_resample_strict
              (ramp float64 8) 4 1 []) as [H _].
  - reflexivity.
  - exact demo_strict_exact_length.
  - reflexivity.
  - reflexivity.
  - lia.
  - lia.
  - vm_compute; reflexivity.
  - vm_compute; discriminate.
  - apply H. vm_compute; reflexivity.
Defined.

Lemma restore_rate_tag_witness :
  let proc := mk_AudioProcessor (ramp float64 8) 4 1 2 in
  4 = original_sr proc /\
  fst (_resample demo (data proc) (inject_Z (original_sr proc))
         (intermediate_sr proc) "scipy" (mk_World proc []))
  = Return (resize 4 (ramp float64 8)).
Proof.
  intros proc.
  apply (restore_rate_tag Q Q demo "scipy" (mk_World proc []))
    with (w' := snd (restore demo "scipy" (mk_World proc []))).
  reflexivity.
Defined.

Lemma filter_noop_at_nyquist_witness :
  fst (_apply_zero_phase_filter demo (ramp float64 3) 4 3
         (mk_World (mk_AudioProcessor (ramp float64 3) 4 2 4) []))
  = Return (ramp float64 3).
Proof.
  apply (filter_noop_at_nyquist Q Q demo demo_butter demo_filtfilt).
  - reflexivity.
  - reflexivity.
  - unfold Qle; simpl; lia.
Defined.

Lemma engine_selection_errors_witness :
  let w := mk_World (mk_AudioProcessor (ramp float64 4) 4 1 2) [] in
  fst (_resample demo_no_scipy (ramp float64 4) 2 4 "scipy" w)
  = Raise (ImportError "SciPy is not installed; cannot use its resampler.") /\
  fst (_resample demo_no_soxr (ramp float64 4) 2 4 "soxr" w)
  = Raise (ImportError "soxr is not installed; cannot use its resampler.") /\
  fst (_resample demo (ramp float64 4) 2 4 "librosa" w)
  = Raise (ValueError "Unknown resampler engine: librosa").
Proof.
  intros w. split; [| split].
  - apply (engine_selection_errors Q Q demo_no_scipy (ramp float64 4) 2 4 "scipy" w);
      reflexivity.
  - apply (engine_selection_errors Q Q demo_no_soxr (ramp float64 4) 2 4 "soxr" w);
      reflexivity.
  - apply (engine_selection_errors Q Q demo (ramp float64 4) 2 4 "librosa" w);
      intros H; discriminate H.
Defined.

Lemma prepare_filters_iff_soxr_witness :
  let s := mk_AudioProcessor (ramp float64 4) 4 1 2 in
  let y := resize 8 (ramp float64 4) in
  fst (prepare demo "soxr" (mk_World s [])) =
    match fst (_apply_zero_phase_filter demo y 4 3 (mk_World s [])) with
    | Return z => Return (z, 4)
    | Raise e => Raise e
    end.
Proof.
  intros s y.
  apply (prepare_filters_iff_soxr Q Q demo "soxr" s [] y).
  - cbn. lia.
  - reflexivity.
  - reflexivity.
Defined.

Lemma non_floating_buffer_rejected_witness :
  process_file demo "prepare" (Ndarray (ramp int16 4)) 44100 17000 "scipy" []
  = (Raise (TypeError "Input data must be a floating-point NumPy array."), []).
Proof.
  apply (non_floating_buffer_rejected Q Q demo 44100 17000 "prepare" "scipy" []).
  reflexivity.
Defined.

Lemma zero_cutoff_division_error_witness :
  fst (process_file demo "prepare" (Ndarray (ramp float64 4)) 44100 0 "scipy" [])
  = Raise ZeroDivisionError.
Proof.
  apply (zero_cutoff_division_error Q Q demo (ramp float64 4) 44100 [])
    with (f := demo_scipy_resample).
  - reflexivity.
  - vm_compute; discriminate.
  - reflexivity.
Defined.

(** C2 does not hold of every non-empty buffer.  For one sample at 1 Hz
    and a cutoff of 1 Hz, and for one sample at 44100 Hz and a cutoff of
    44100 Hz, the count is [round(0.5) = 0], on the doubles of the code as
    well, and [prepare] fails with the [ZeroDivisionError] of the
    resampler, which is asked for no rows. *)
Lemma prepare_of_one_sample_fails :
  len (ramp float64 1) = 1 /\
  np_round (inject_Z 1 * inject_Z 1 / inject_Z (2 * 1)) = 0 /\
  prepare_count_binary64 1 1 1 = Some 0 /\
  prepare_count_binary64 1 44100 44100 = Some 0 /\
  fst (process_file demo_strict "prepare" (Ndarray (ramp float64 1)) 1 1 "scipy" [])
  = Raise ZeroDivisionError /\
  fst (process_file demo_strict "prepare" (Ndarray (ramp float64 1)) 44100 44100
         "scipy" [])
  = Raise ZeroDivisionError.
Proof. repeat split; vm_compute; reflexivity. Qed.

(** C3 does not hold of every non-empty buffer.  For one sample at
    44100 Hz and a cutoff of 10000 Hz the count is [round(0.4535...) = 0],
    on the doubles of the code as well, and [restore] fails with the
    [ZeroDivisionError] of the resampler, which is asked for no rows. *)
Lemma restore_of_one_sample_fails :
  len (ramp float64 1) = 1 /\
  np_round (inject_Z 1 * inject_Z (2 * 10000) / inject_Z 44100) = 0 /\
  restore_count_binary64 1 44100 10000 = Some 0 /\
  fst (process_file demo_strict "restore" (Ndarray (ramp float64 1)) 44100 10000
         "scipy" [])
  = Raise ZeroDivisionError.
Proof. repeat split; vm_compute; reflexivity. Qed.

(** C6 does not hold of the code.  With a cutoff of 0, and with a
    negative one, the constructor returns a processor.  With a cutoff of 0
    [prepare] and [restore] then fail with [ZeroDivisionError], not with
    an error about the cutoff.  With a negative cutoff the kernel raises
    nothing of its own: for one sample at 44100 Hz and a cutoff of -44100
    the count is [round(-0.5) = 0], and the failure is the
    [ZeroDivisionError] of the resampler, which is asked for no rows. *)
Lemma nonpositive_cutoff_not_rejected :
  __init__ (Ndarray (ramp float64 4)) 4 0
  = Return (mk_AudioProcessor (ramp float64 4) 4 0 0) /\
  __init__ (Ndarray (ramp float64 1)) 44100 (-44100)
  = Return (mk_AudioProcessor (ramp float64 1) 44100 (-44100) (inject_Z (-88200))) /\
  fst (process_file demo_strict "prepare" (Ndarray (ramp float64 4)) 4 0 "scipy" [])
  = Raise ZeroDivisionError /\
  fst (process_file demo_strict "restore" (Ndarray (ramp float64 4)) 4 0 "scipy" [])
  = Raise ZeroDivisionError /\
  prepare_count_binary64 1 44100 (-44100) = Some 0 /\
  fst (process_file demo_strict "prepare" (Ndarray (ramp float64 1)) 44100 (-44100)
         "scipy" [])
  = Raise ZeroDivisionError.
Proof. repeat split; vm_compute; reflexivity. Qed.

(** C7 does not hold of the code for the empty buffer.  An empty
    [float64] array passes the test of the constructor.  [prepare] then
    prints its first lines and asks the resampler for no rows: the failure
    is the [ZeroDivisionError] of the resampler, not the [TypeError] of
    the constructor, and it comes after the kernel has started. *)
Lemma empty_buffer_accepted :
  len (ramp float64 0) = 0 /\
  __init__ (Ndarray (ramp float64 0)) 44100 17000
  = Return (mk_AudioProcessor (ramp float64 0) 44100 17000 (inject_Z 34000)) /\
  prepare_count_binary64 0 44100 17000 = Some 0 /\
  fst (process_file demo_strict "prepare" (Ndarray (ramp float64 0)) 44100 17000
         "scipy" [])
  = Raise ZeroDivisionError /\
  In StartingPreparation
     (snd (process_file demo_strict "prepare" (Ndarray (ramp float64 0)) 44100 17000
             "scipy" [])).
Proof. repeat split; try (vm_compute; reflexivity). now left. Qed.

(** * More about the kernel *)

Section KernelExtras.

Context {row coef : Type}.

Lemma prepare_zero_rate (rt : Runtime row coef) (engine : string)
    (s : AudioProcessor row) (out : list line) :
  original_sr s = 0 ->
  prepare rt engine (mk_World s out)
  = (Raise ZeroDivisionError, mk_World s (out ++ [StartingPreparation])).
Proof.
  intros HR. unfold prepare, bind at 1 2 3 4. unfold print at 1, attr.
  cbn [self stdout]. rewrite HR. reflexivity.
Qed.

Lemma filter_unavailable (rt : Runtime row coef) (x : ndarray row)
    (sr passes : Z) (w : World row) :
  butter rt = None \/ filtfilt rt = None ->
  _apply_zero_phase_filter rt x sr passes w
  = (Raise (ImportError "SciPy is not installed; cannot apply filter."), w).
Proof.
  intros [H | H]; unfold _apply_zero_phase_filter; rewrite H.
  - reflexivity.
  - now destruct (butter rt).
Qed.

End KernelExtras.

(** X1. [restore] applies no filter.  Its outcome and what it prints are
    the same on two runtimes that have the same resamplers, whatever
    [butter] and [filtfilt] are, and it never prints the line of the
    filter. *)
Theorem restore_never_filters :
  forall (row coef : Type) (rt rt' : Runtime row coef) (engine : string)
         (s : AudioProcessor row) (out : list line),
    scipy_resample rt = scipy_resample rt' -> soxr rt = soxr rt' ->
    restore rt engine (mk_World s out) = restore rt' engine (mk_World s out) /\
    exists lines,
      stdout (snd (restore rt engine (mk_World s out))) = (out ++ lines)%list /\
      forall p o c, ~ In (ApplyingFilter p o c) lines.
Proof.
  intros row coef rt rt' engine s out H1 H2. split.
  - unfold restore, _resample. now rewrite H1, H2.
  - destruct (resample_run rt (data s) (inject_Z (original_sr s))
                (intermediate_sr s) engine s) as (r & Hr).
    destruct (restore_unfold rt engine s out) as (r' & lines & Hres & E).
    pose proof (Hr []) as E1. rewrite Hres in E1.
    inversion E1 as [[Er El]]. subst r' lines. clear E1 Hres.
    rewrite E.
    destruct r as [y | e]; [destruct (Qeq_bool (intermediate_sr s) 0) |];
      cbn [snd stdout]; eexists; (split; [reflexivity |]);
      intros p o c Hin; cbn in Hin;
      repeat (destruct Hin as [Hin | Hin]; [discriminate Hin |]);
      exact Hin.
Qed.

(** X2. With the ['soxr'] engine [prepare] needs SciPy all the same: when
    [butter] or [filtfilt] is [None] the call never returns, and once the
    resampler has returned a buffer the failure is the [ImportError] of
    the filter, whatever the cutoff. *)
Theorem fast_prepare_needs_scipy :
  forall (row coef : Type) (rt : Runtime row coef)
         (s : AudioProcessor row) (out : list line),
    butter rt = None \/ filtfilt rt = None ->
    (forall v, fst (prepare rt "soxr" (mk_World s out)) <> Return v) /\
    (forall y,
       original_sr s <> 0 ->
       fst (_resample rt (data s) (intermediate_sr s) (inject_Z (original_sr s))
              "soxr" (mk_World s out)) = Return y ->
       fst (prepare rt "soxr" (mk_World s out))
       = Raise (ImportError "SciPy is not installed; cannot apply filter.")).
Proof.
  intros row coef rt s out Hnone.
  destruct (resample_run rt (data s) (intermediate_sr s)
              (inject_Z (original_sr s)) "soxr" s) as (r & Hres).
  assert (Hgo : original_sr s <> 0 ->
                fst (prepare rt "soxr" (mk_World s out))
                = match r with
                  | Return _ =>
                      Raise (ImportError "SciPy is not installed; cannot apply filter.")
                  | Raise e => Raise e
                  end).
  { intros HR.
    rewrite (prepare_unfold rt "soxr" s HR r Hres out).
    destruct r as [y | e]; [| reflexivity].
    cbn [String.eqb Ascii.eqb Bool.eqb].
    now rewrite (filter_unavailable rt y (original_sr s) 3 _ Hnone). }
  split.
  - intros v.
    destruct (Z.eq_dec (original_sr s) 0) as [HR | HR].
    + now rewrite (prepare_zero_rate rt "soxr" s out HR).
    + rewrite (Hgo HR). now destruct r.
  - intros y HR Hy. rewrite (Hgo HR).
    rewrite Hres in Hy. cbn [fst] in Hy. now subst r.
Qed.

(** X3. Below Nyquist, with a positive cutoff, the filter is designed by
    [butter] with order [8 * passes], the normalised cutoff
    [cutoff / (sr / 2)], which lies strictly between 0 and 1, ['low'] and
    [analog=False], and the outcome is that of [filtfilt] with the designed
    coefficients on axis 0; an exception of [butter] is the outcome. *)
Theorem filter_design_parameters :
  forall (row coef : Type) (rt : Runtime row coef) butter_ filtfilt_
         (x : ndarray row) (sr passes : Z) (w : World row),
    butter rt = Some butter_ -> filtfilt rt = Some filtfilt_ ->
    0 < cutoff_freq (self w) ->
    (inject_Z (cutoff_freq (self w)) < inject_Z sr / 2)%Q ->
    let Wn := (inject_Z (cutoff_freq (self w)) / ((1 # 2) * inject_Z sr))%Q in
    (0 < Wn)%Q /\ (Wn < 1)%Q /\
    fst (_apply_zero_phase_filter rt x sr passes w)
    = match butter_ (8 * passes) Wn "low"%string false with
      | Return ba => filtfilt_ (fst ba) (snd ba) x 0
      | Raise e => Raise e
      end.
Proof.
  intros row coef rt b f x sr passes w Hb Hf Hpos Hlt Wn.
  assert (E : (inject_Z sr / 2 == (1 # 2) * inject_Z sr)%Q) by field.
  rewrite E in Hlt.
  assert (Hc : (0 < inject_Z (cutoff_freq (self w)))%Q) by now apply inject_Z_pos.
  assert (Hny : (0 < (1 # 2) * inject_Z sr)%Q) by lra.
  split; [| split].
  - unfold Wn. apply Qlt_shift_div_l; [exact Hny | lra].
  - unfold Wn. apply Qlt_shift_div_r; [exact Hny | lra].
  - unfold _apply_zero_phase_filter. rewrite Hb, Hf.
    unfold bind at 1 2 3, attr, print; cbn [self stdout].
    assert (Hle : Qle_bool ((1 # 2) * inject_Z sr)
                    (inject_Z (cutoff_freq (self w))) = false).
    { destruct (Qle_bool _ _) eqn:Hq; [| reflexivity].
      apply Qle_bool_iff in Hq. lra. }
    rewrite Hle.
    unfold bind at 1 2, attr; cbn [self].
    rewrite truediv_nonzero.
    + unfold bind, call. fold Wn.
      now destruct (b (8 * passes) Wn _ false).
    + destruct (Qeq_bool _ 0) eqn:Hq; [| reflexivity].
      apply Qeq_bool_iff in Hq. lra.
Qed.

(** X4. An exception of the resampling step, be it of the kernel or of a
    library, is the outcome of [restore], and of [prepare] when the
    original rate is not zero. *)
Theorem resample_errors_propagate :
  forall (row coef : Type) (rt : Runtime row coef) (engine : string)
         (s : AudioProcessor row) (out : list line) (e : exn),
    (fst (_resample rt (data s) (inject_Z (original_sr s)) (intermediate_sr s)
            engine (mk_World s out)) = Raise e ->
     fst (restore rt engine (mk_World s out)) = Raise e) /\
    (original_sr s <> 0 ->
     fst (_resample rt (data s) (intermediate_sr s) (inject_Z (original_sr s))
            engine (mk_World s out)) = Raise e ->
     fst (prepare rt engine (mk_World s out)) = Raise e).
Proof.
  intros row coef rt engine s out e. split.
  - destruct (restore_unfold rt engine s out) as (r & lines & Hres & E).
    rewrite Hres, E. cbn [fst]. now intros ->.
  - intros HR.
    destruct (resample_run rt (data s) (intermediate_sr s)
                (inject_Z (original_sr s)) engine s) as (r & Hres).
    rewrite (prepare_unfold rt engine s HR r Hres out), Hres.
    cbn [fst]. now intros ->.
Qed.

(** X5. The closing banner is the mark of success: among the lines that a
    call of [prepare] adds to the console, "Preparation Finished" occurs
    if and only if the call returns, and likewise "Restoration Finished"
    for [restore]. *)
Theorem finished_banner_iff_returned :
  forall (row coef : Type) (rt : Runtime row coef) (engine : string)
         (s : AudioProcessor row) (out : list line),
    (exists lines,
       stdout (snd (prepare rt engine (mk_World s out))) = (out ++ lines)%list /\
       (In PreparationFinished lines <->
        exists v, fst (prepare rt engine (mk_World s out)) = Return v)) /\
    (exists lines,
       stdout (snd (restore rt engine (mk_World s out))) = (out ++ lines)%list /\
       (In RestorationFinished lines <->
        exists v, fst (restore rt engine (mk_World s out)) = Return v)).
Proof.
  intros row coef rt engine s out. split.
  - destruct (Z.eq_dec (original_sr s) 0) as [HR | HR].
    { rewrite (prepare_zero_rate rt engine s out HR). cbn [fst snd stdout].
      eexists. split; [reflexivity |]. split.
      - intros [H | []]; discriminate H.
      - intros (v & H); discriminate H. }
    destruct (resample_run rt (data s) (intermediate_sr s)
                (inject_Z (original_sr s)) engine s) as (r & Hres).
    rewrite (prepare_unfold rt engine s HR r Hres out).
    set (header := [StartingPreparation;
                    InterpretingSpeed (intermediate_sr s / inject_Z (original_sr s))
                      (inject_Z (original_sr s)) (intermediate_sr s);
                    Resampling (intermediate_sr s) (inject_Z (original_sr s)) engine]).
    assert (Hh : ~ In PreparationFinished header).
    { intros [H | [H | [H | []]]]; discriminate H. }
    destruct r as [y | e].
    + destruct (String.eqb engine "soxr").
      * destruct (filter_run rt y (original_sr s) 3 s) as (rf & fl & Hf & Hfl).
        rewrite Hf.
        assert (Hfl' : ~ In PreparationFinished fl).
        { destruct Hfl as [(-> & _) | ->]; [intros [] |].
          intros [H | []]; discriminate H. }
        destruct rf as [z | e]; cbn [fst snd stdout self].
        -- exists (header ++ fl ++ [PreparationFinished])%list. split.
           ++ now rewrite <- !app_assoc.
           ++ split; [intros _; now eexists |].
              intros _. rewrite !in_app_iff. right; right. now left.
        -- exists (header ++ fl)%list. split.
           ++ now rewrite <- !app_assoc.
           ++ split; [| intros (v & H); discriminate H].
              rewrite in_app_iff. tauto.
      * cbn [fst snd stdout].
        exists (header ++ [PreparationFinished])%list. split; [reflexivity |].
        split; [intros _; now eexists |].
        intros _. rewrite in_app_iff. right. now left.
    + cbn [fst snd stdout]. exists header. split; [reflexivity |].
      split; [tauto | intros (v & H); discriminate H].
  - destruct (restore_unfold rt engine s out) as (r & lines & Hres & E).
    destruct (resample_run rt (data s) (inject_Z (original_sr s))
                (intermediate_sr s) engine s) as (r' & Hr).
    pose proof (Hr []) as E1. rewrite Hres in E1.
    inversion E1 as [[Er El]]. subst r' lines. clear E1 Hres Hr.
    rewrite E.
    destruct r as [y | e]; [destruct (Qeq_bool (intermediate_sr s) 0) |];
      cbn [fst snd stdout]; eexists; (split; [reflexivity |]); split;
      try (intros (v & H); discriminate H);
      try (intros _; now eexists);
      cbn; intros H;
      repeat (destruct H as [H | H]; [discriminate H || tauto |]);
      try tauto.
Qed.




Lemma restore_never_filters_witness :
  let s := mk_AudioProcessor (ramp float64 8) 4 1 2 in
  restore demo "soxr" (mk_World s []) = restore demo_no_filter "soxr" (mk_World s []) /\
  exists lines,
    stdout (snd (restore demo "soxr" (mk_World s []))) = ([] ++ lines)%list /\
    forall p o c, ~ In (ApplyingFilter p o c) lines.
Proof.
  intros s.
  apply (restore_never_filters Q Q demo demo_no_filter "soxr" s []); reflexivity.
Defined.

Lemma fast_prepare_needs_scipy_witness :
  let s := mk_AudioProcessor (ramp float64 4) 4 1 2 in
  fst (prepare demo_no_scipy "soxr" (mk_World s []))
  = Raise (ImportError "SciPy is not installed; cannot apply filter.").
Proof.
  intros s.
  apply (fast_prepare_needs_scipy Q Q demo_no_scipy s [])
    with (y := resize 8 (ramp float64 4)).
  - left. reflexivity.
  - cbn. lia.
  - reflexivity.
Defined.

Lemma filter_design_parameters_witness :
  let w := mk_World (mk_AudioProcessor (ramp float64 3) 4 1 2) [] in
  let Wn := (inject_Z 1 / ((1 # 2) * inject_Z 4))%Q in
  (0 < Wn)%Q /\ (Wn < 1)%Q /\
  fst (_apply_zero_phase_filter demo (ramp float64 3) 4 3 w)
  = match demo_butter (8 * 3) Wn "low" false with
    | Return ba => demo_filtfilt (fst ba) (snd ba) (ramp float64 3) 0
    | Raise e => Raise e
    end.
Proof.
  intros w Wn.
  apply (filter_design_parameters Q Q demo demo_butter demo_filtfilt
           (ramp float64 3) 4 3 w).
  - reflexivity.
  - reflexivity.
  - cbn. lia.
  - reflexivity.
Defined.

Lemma resample_errors_propagate_witness :
  let s := mk_AudioProcessor (ramp float64 4) 4 1 2 in
  fst (restore demo_no_scipy "scipy" (mk_World s []))
  = Raise (ImportError "SciPy is not installed; cannot use its resampler.").
Proof.
  intros s.
  destruct (resample_errors_propagate Q Q demo_no_scipy "scipy" s []
              (ImportError "SciPy is not installed; cannot use its resampler."))
    as [H _].
  apply H. reflexivity.
Defined.


(** ** The count on the doubles of the code *)








(** The rounded quotient is the quotient of the doubles, and the count
    made from it the count of the code. *)
Example quotient_matches_the_doubles :
  forallb (fun ab => quotient_checked (fst ab) (snd ab))
    [(1, 3); (2, 3); (5, 2); (44100 * 44100, 2 * 17000); (57200 * 34000, 44100);
     (2 ^ 52 - 1, 3); (2 ^ 51 + 7, 2 ^ 26 + 1); (1, 2 ^ 53); (7, 2 ^ 40 + 1);
     (2 ^ 52 - 1, 2 ^ 53); (3, 2 ^ 53 - 1)] = true /\
  prepare_count_binary64 44100 44100 17000
  = Some (np_round (quotient_binary64 (44100 * 44100) (2 * 17000))) /\
  restore_count_binary64 (2 ^ 50) (2 ^ 26 + 1) 1
  = Some (np_round (quotient_binary64 (2 ^ 50 * (2 * 1)) (2 ^ 26 + 1))).
Proof. repeat split; vm_compute; reflexivity. Qed.

(** * The profile store *)

Module ConfigFacts.

Import Config.
Local Open Scope string_scope.

(** ** Dictionaries *)

Lemma dict_get_set_same {V : Type} (k : string) (v : V) (d : list (string * V)) :
  dict_get k (dict_set k v d) = Some v.
Proof.
  induction d as [| [k' v'] rest IH]; cbn.
  - now rewrite String.eqb_refl.
  - destruct (String.eqb k' k) eqn:E; cbn; now rewrite E.
Qed.

Lemma dict_get_set_other {V : Type} (k n : string) (v : V) (d : list (string * V)) :
  n <> k -> dict_get n (dict_set k v d) = dict_get n d.
Proof.
  intros Hn. induction d as [| [k' v'] rest IH]; cbn.
  - apply String.eqb_neq in Hn. rewrite String.eqb_sym. now rewrite Hn.
  - destruct (String.eqb_spec k' k) as [-> | Hk]; cbn.
    + destruct (String.eqb_spec k n) as [-> | _]; [contradiction | reflexivity].
    + now rewrite IH.
Qed.

Lemma dict_get_del_same {V : Type} (k : string) (d : list (string * V)) :
  dict_get k (dict_del k d) = None.
Proof.
  unfold dict_del.
  induction d as [| [k' v'] rest IH]; cbn; [reflexivity |].
  destruct (String.eqb k' k) eqn:E; cbn; [exact IH |].
  now rewrite E.
Qed.

Lemma dict_get_del_other {V : Type} (k n : string) (d : list (string * V)) :
  n <> k -> dict_get n (dict_del k d) = dict_get n d.
Proof.
  intros Hn. unfold dict_del.
  induction d as [| [k' v'] rest IH]; cbn; [reflexivity |].
  destruct (String.eqb_spec k' k) as [-> | Hk]; cbn.
  - destruct (String.eqb_spec k n) as [-> | _]; [contradiction | exact IH].
  - now rewrite IH.
Qed.

Lemma dict_del_absent {V : Type} (k : string) (d : list (string * V)) :
  dict_mem k d = false -> dict_del k d = d.
Proof.
  unfold dict_mem, dict_del.
  induction d as [| [k' v'] rest IH]; cbn; [reflexivity |].
  destruct (String.eqb k' k) eqn:E; cbn; [discriminate |].
  intros H. now rewrite (IH H).
Qed.

Lemma keys_set {V : Type} (k : string) (v : V) (d : list (string * V)) :
  keys (dict_set k v d) = if dict_mem k d then keys d else (keys d ++ [k])%list.
Proof.
  unfold keys, dict_mem.
  induction d as [| [k' v'] rest IH]; cbn; [reflexivity |].
  destruct (String.eqb k' k) eqn:E; cbn; [reflexivity |].
  rewrite IH. now destruct (dict_get k rest).
Qed.

Lemma dict_get_map {V W : Type} (g : V -> W) (k : string) (d : list (string * V)) :
  dict_get k (map (fun kv => (fst kv, g (snd kv))) d) = option_map g (dict_get k d).
Proof.
  induction d as [| [k' v'] rest IH]; cbn; [reflexivity |].
  now destruct (String.eqb k' k).
Qed.

Lemma dict_set_map {V W : Type} (g : V -> W) (k : string) (v : V)
    (d : list (string * V)) :
  map (fun kv => (fst kv, g (snd kv))) (dict_set k v d)
  = dict_set k (g v) (map (fun kv => (fst kv, g (snd kv))) d).
Proof.
  induction d as [| [k' v'] rest IH]; cbn; [reflexivity |].
  destruct (String.eqb k' k); cbn; [reflexivity | now rewrite IH].
Qed.

Lemma map_items_id (items : list (string * json)) :
  map (fun kv => (fst kv, snd kv)) items = items.
Proof.
  induction items as [| [k v] rest IH]; cbn; [reflexivity | now rewrite IH].
Qed.

(** Reading back what was dumped for a loaded value gives the value. *)
Lemma dump_loaded (p : Process) (j : json) : dump p (loaded j) = j.
Proof.
  destruct j; try reflexivity.
  cbn. rewrite map_map. cbn. now rewrite map_items_id.
Qed.


(** ** Storing and deleting in the object behind a slot *)

Lemma setitem_inv (k : string) (v : json) (s s' : slot) (p p1 : Process) :
  setitem k v s p = Returns (s', p1) ->
  exists d,
    deref p s = JDict d /\ deref p1 s' = JDict (dict_set k v d) /\
    fs p1 = fs p /\ stdout p1 = stdout p /\
    (s = TheDefaults /\ s' = TheDefaults /\
     default_profiles p1 = dict_set k v (default_profiles p) \/
     s = Val (JDict d) /\ s' = Val (JDict (dict_set k v d)) /\ p1 = p).
Proof.
  destruct s as [j |]; cbn.
  - destruct j; try discriminate.
    intros H; inversion H; subst. exists items. repeat split. now right.
  - intros H; inversion H; subst. exists (default_profiles p).
    repeat split. now left.
Qed.

Lemma delitem_inv (k : string) (s s' : slot) (p p1 : Process) :
  delitem k s p = Returns (s', p1) ->
  exists d,
    deref p s = JDict d /\ deref p1 s' = JDict (dict_del k d) /\
    fs p1 = fs p /\ stdout p1 = stdout p.
Proof.
  destruct s as [j |]; cbn.
  - destruct j; try discriminate.
    destruct (dict_mem k items); [| discriminate].
    intros H; inversion H; subst. exists items. repeat split.
  - destruct (dict_mem k (default_profiles p)); [| discriminate].
    intros H; inversion H; subst. exists (default_profiles p). repeat split.
Qed.

Lemma save_profile_inv (name : string) (settings : json)
    (self self' : ProfileManager) (p p' : Process) (r : result unit) :
  save_profile name settings self p = (r, self', p') ->
  (exists e, r = Raises e /\ self' = self /\ p' = p) \/
  (exists items s s' p1,
     r = Returns tt /\
     config_data self = CDict items /\ dict_get "profiles" items = Some s /\
     setitem name settings s p = Returns (s', p1) /\
     self' = mk_ProfileManager (path self) (CDict (dict_set "profiles" s' items)) /\
     p' = print (ProfileSaved name)
            (_write_to_file (path self)
               (CDict (dict_set "profiles" s' items)) p1)).
Proof.
  unfold save_profile, profiles_slot.
  destruct (config_data self) as [items | j] eqn:Ec.
  - destruct (dict_get "profiles" items) as [s |] eqn:Es.
    + destruct (setitem name settings s p) as [[s' p1] | e] eqn:Ei.
      * intros H; inversion H; subst. right.
        exists items, s, s', p1. repeat split; assumption.
      * intros H; inversion H; subst. left. now exists e.
    + intros H; inversion H; subst. left. now eexists.
  - intros H; inversion H; subst. left. now eexists.
Qed.

Lemma delete_profile_inv (name : string)
    (self self' : ProfileManager) (p p' : Process) (r : result bool) :
  delete_profile name self p = (r, self', p') ->
  (self' = self /\ p' = p /\
   ((exists e, r = Raises e) \/
    exists items s,
      r = Returns false /\ config_data self = CDict items /\
      dict_get "profiles" items = Some s /\
      contains name (deref p s) = Returns false)) \/
  (exists items s s' p1,
     r = Returns true /\
     config_data self = CDict items /\ dict_get "profiles" items = Some s /\
     contains name (deref p s) = Returns true /\
     delitem name s p = Returns (s', p1) /\
     self' = mk_ProfileManager (path self) (CDict (dict_set "profiles" s' items)) /\
     p' = print (ProfileDeleted name)
            (_write_to_file (path self)
               (CDict (dict_set "profiles" s' items)) p1)).
Proof.
  unfold delete_profile, profiles_slot.
  destruct (config_data self) as [items | j] eqn:Ec.
  - destruct (dict_get "profiles" items) as [s |] eqn:Es.
    + destruct (contains name (deref p s)) as [[|] | e] eqn:Ein.
      * destruct (delitem name s p) as [[s' p1] | e] eqn:Ei.
        -- intros H; inversion H; subst. right.
           exists items, s, s', p1. repeat split; assumption.
        -- intros H; inversion H; subst. left.
           repeat split. left. now eexists.
      * intros H; inversion H; subst. left. repeat split. right.
        exists items, s. repeat split; assumption.
      * intros H; inversion H; subst. left. repeat split. left. now eexists.
    + intros H; inversion H; subst. left. repeat split. left. now eexists.
  - intros H; inversion H; subst. left. repeat split. left. now eexists.
Qed.

Lemma dump_write (path_ : string) (c c' : config) (p : Process) :
  dump (_write_to_file path_ c p) c' = dump p c'.
Proof. reflexivity. Qed.



(** ** Opening a configuration *)

(** X7. A file that holds a dictionary with the keys ["profiles"] and
    ["_app_settings"] is taken as it is: the manager is created without
    writing or printing anything, and its profiles and settings are the
    values found under the two keys. *)
Theorem valid_file_loaded_as_is :
  forall (path_ : string) (p : Process) (items : list (string * json))
         (profiles settings : json),
    fs p path_ = Holds (JDict items) ->
    dict_get "profiles" items = Some profiles ->
    dict_get SETTINGS_KEY items = Some settings ->
    exists m,
      __init__ path_ p = (Returns m, p) /\
      path m = path_ /\
      get_profiles m p = Returns profiles /\
      get_app_settings m p = Returns settings /\
      in_sync m p.
Proof.
  intros path_ p items profiles settings Hfs Hp Hs.
  exists (mk_ProfileManager path_ (loaded (JDict items))).
  unfold __init__, _load_or_create. rewrite Hfs.
  cbn [contains]. unfold dict_mem. rewrite Hp, Hs.
  repeat split.
  - unfold get_profiles, config_get; cbn.
    now rewrite (dict_get_map Val), Hp.
  - unfold get_app_settings, config_get; cbn [config_data loaded].
    now rewrite (dict_get_map Val), Hs.
  - unfold in_sync. cbn [path config_data]. now rewrite dump_loaded.
Qed.

(** X8. A file that is absent, is UTF-8 text that [json.load] refuses with
    [json.JSONDecodeError], or holds a dictionary, list or string in which
    ["profiles"] or ["_app_settings"] is not found, is replaced: the
    manager starts from the defaults, the file is overwritten with them,
    whatever it held, and no other file is touched.  A warning is printed
    unless the file was absent.  A file whose bytes are not UTF-8 is not
    among these: reading it raises [UnicodeDecodeError], which the handler
    for [json.JSONDecodeError] and [KeyError] lets through, so that the
    constructor fails and the file stays as it was. *)
Theorem unusable_file_replaced_by_defaults :
  forall (path_ : string) (p : Process),
    (fs p path_ = Missing \/ fs p path_ = Corrupt \/
     (exists data,
        fs p path_ = Holds data /\
        (contains "profiles" data = Returns false \/
         contains "profiles" data = Returns true /\
         contains SETTINGS_KEY data = Returns false)) ->
     exists m p',
       __init__ path_ p = (Returns m, p') /\
       get_profiles m p' = Returns (JDict (default_profiles p)) /\
       get_app_settings m p' = Returns default_settings_json /\
       fs p' path_ = Holds (JDict [("profiles", JDict (default_profiles p));
                                   (SETTINGS_KEY, default_settings_json)]) /\
       (forall q, q <> path_ -> fs p' q = fs p q) /\
       default_profiles p' = default_profiles p /\
       stdout p' = (stdout p ++
                    match fs p path_ with
                    | Missing => [CreatingDefaults path_]
                    | _ => [WarningCorrupt path_; CreatingDefaults path_]
                    end)%list) /\
    (fs p path_ = Undecodable ->
     __init__ path_ p = (Raises UnicodeDecodeError, p)).
Proof.
  intros path_ p. split;
    [| intros Hfs; unfold __init__, _load_or_create; now rewrite Hfs].
  intros H.
  assert (Hother : forall (c : config) (p0 : Process) q,
             q <> path_ -> fs (_write_to_file path_ c p0) q = fs p0 q).
  { intros c p0 q Hq. cbn. apply String.eqb_neq in Hq. now rewrite Hq. }
  assert (Hcases :
    __init__ path_ p =
      (Returns (mk_ProfileManager path_ (fst (_create_default_config path_ p))),
       snd (_create_default_config path_ p)) /\ fs p path_ = Missing \/
    __init__ path_ p =
      (Returns (mk_ProfileManager path_
                  (fst (_create_default_config path_ (print (WarningCorrupt path_) p)))),
       snd (_create_default_config path_ (print (WarningCorrupt path_) p))) /\
    fs p path_ <> Missing).
  { unfold __init__, _load_or_create.
    destruct H as [H | [H | (data & H & Hd)]]; rewrite H.
    - left. now split.
    - right. now split.
    - right. split; [| discriminate].
      destruct Hd as [Hd | [Hd1 Hd2]].
      + now rewrite Hd.
      + now rewrite Hd1, Hd2. }
  destruct Hcases as [[E Hm] | [E Hm]]; rewrite E; eexists; eexists;
    (split; [reflexivity |]); cbn [fst snd _create_default_config];
    repeat split.
  all: try (intros q Hq; now rewrite Hother).
  all: try (cbn; now rewrite String.eqb_refl).
  - rewrite Hm. reflexivity.
  - cbn. destruct (fs p path_); [contradiction | | |]; now rewrite <- app_assoc.
Qed.

(** X9. A file that holds a bare number, boolean or [null] is neither
    loaded nor replaced: the membership test raises a [TypeError] that the
    handler of [_load_or_create] does not catch, the constructor fails and
    the process is as it was. *)
Theorem scalar_file_fails_constructor :
  forall (path_ : string) (p : Process) (j : json),
    fs p path_ = Holds j ->
    (forall items, j <> JDict items) -> (forall l, j <> JList l) ->
    (forall s, j <> JStr s) ->
    __init__ path_ p = (Raises TypeError, p).
Proof.
  intros path_ p j Hfs Hd Hl Hs.
  unfold __init__, _load_or_create. rewrite Hfs.
  destruct j; try reflexivity.
  - now destruct (Hs s).
  - now destruct (Hl l).
  - now destruct (Hd items).
Qed.

(** ** The file mirrors the configuration *)

Lemma dict_mem_set {V : Type} (k n : string) (v : V) (d : list (string * V)) :
  dict_mem n d = true -> dict_mem n (dict_set k v d) = true.
Proof.
  unfold dict_mem. intros H.
  destruct (String.eqb_spec n k) as [-> | Hn].
  - now rewrite dict_get_set_same.
  - now rewrite dict_get_set_other.
Qed.

Lemma dict_mem_map {V W : Type} (g : V -> W) (k : string) (d : list (string * V)) :
  dict_mem k (map (fun kv => (fst kv, g (snd kv))) d) = dict_mem k d.
Proof.
  unfold dict_mem. rewrite dict_get_map. now destruct (dict_get k d).
Qed.

Lemma init_inv (path_ : string) (p p' : Process) (m : ProfileManager) :
  __init__ path_ p = (Returns m, p') ->
  path m = path_ /\ in_sync m p' /\
  (forall items, config_data m = CDict items ->
     dict_mem "profiles" items = true /\ dict_mem SETTINGS_KEY items = true).
Proof.
  unfold __init__, _load_or_create.
  assert (Hcreate : forall p0,
            let m0 := mk_ProfileManager path_ (fst (_create_default_config path_ p0)) in
            path m0 = path_ /\ in_sync m0 (snd (_create_default_config path_ p0)) /\
            (forall items, config_data m0 = CDict items ->
               dict_mem "profiles" items = true /\
               dict_mem SETTINGS_KEY items = true)).
  { intros p0 m0. repeat split.
    - unfold in_sync; cbn. now rewrite String.eqb_refl.
    - cbn in H. inversion H; subst. reflexivity.
    - cbn in H. inversion H; subst. reflexivity. }
  destruct (fs p path_) as [| | | data] eqn:Hfs.
  - intros H; inversion H; subst. apply Hcreate.
  - discriminate.
  - intros H; inversion H; subst. apply Hcreate.
  - destruct (contains "profiles" data) as [[|] | e] eqn:H1;
      [| intros H; inversion H; subst; apply Hcreate | discriminate].
    destruct (contains SETTINGS_KEY data) as [[|] | e] eqn:H2;
      [| intros H; inversion H; subst; apply Hcreate | discriminate].
    intros H; inversion H; subst. repeat split.
    + unfold in_sync. simpl. rewrite dump_loaded. exact Hfs.
    + destruct data; try discriminate. cbn in H0. inversion H0; subst.
      cbn in H1. injection H1 as H1. now rewrite (dict_mem_map Val).
    + destruct data; try discriminate. cbn in H0. inversion H0; subst.
      cbn in H2. injection H2 as H2. now rewrite (dict_mem_map Val).
Qed.


(** X11. What [save_profile] stored survives a restart: a manager opened
    afterwards on the same file is built without writing or printing, and
    its profiles are those of the manager that saved, the new one
    included. *)
Theorem saved_profile_survives_reopening :
  forall (path_ name : string) (settings : json) (p p1 p2 : Process)
         (m m2 : ProfileManager),
    __init__ path_ p = (Returns m, p1) ->
    save_profile name settings m p1 = (Returns tt, m2, p2) ->
    exists m3 d,
      __init__ path_ p2 = (Returns m3, p2) /\
      get_profiles m3 p2 = Returns (JDict d) /\
      get_profiles m2 p2 = Returns (JDict d) /\
      dict_get name d = Some settings.
Proof.
  intros path_ name settings p p1 p2 m m2 Hinit Hsave.
  destruct (init_inv _ _ _ _ Hinit) as (Hpath & _ & Hkeys).
  destruct (save_profile_inv _ _ _ _ _ _ _ Hsave)
    as [(e & He & _) | (items & s & s' & p1' & _ & Hc & Hs & Hset & -> & ->)];
    [discriminate |].
  destruct (Hkeys items Hc) as (Kp & Ks).
  destruct (setitem_inv _ _ _ _ _ _ Hset) as (d & _ & Hd' & _ & _ & _).
  set (items' := dict_set "profiles" s' items).
  set (p2 := print (ProfileSaved name) (_write_to_file (path m) (CDict items') p1')).
  set (held := map (fun kv => (fst kv, deref p1' (snd kv))) items').
  assert (Hfs : fs p2 path_ = Holds (JDict held)).
  { subst p2. cbn. rewrite Hpath. now rewrite String.eqb_refl. }
  assert (K1 : dict_mem "profiles" held = true).
  { unfold held. rewrite dict_mem_map. now apply dict_mem_set. }
  assert (K2 : dict_mem SETTINGS_KEY held = true).
  { unfold held. rewrite dict_mem_map. now apply dict_mem_set. }
  assert (G : dict_get "profiles" items' = Some s').
  { apply dict_get_set_same. }
  exists (mk_ProfileManager path_ (loaded (JDict held))), (dict_set name settings d).
  repeat split.
  - unfold __init__, _load_or_create. rewrite Hfs. cbn [contains].
    now rewrite K1, K2.
  - unfold get_profiles, config_get. cbn [config_data loaded].
    rewrite (dict_get_map Val). unfold held. rewrite dict_get_map, G.
    cbn. now rewrite Hd'.
  - unfold get_profiles, config_get. cbn [config_data].
    fold items'. rewrite G. now rewrite <- Hd'.
  - apply dict_get_set_same.
Qed.

(** ** Profiles *)

(** X12. After [save_profile] has returned, the profiles are those of
    before with the new settings stored under the name: looking the name
    up gives the settings, every other name gives what it gave before, a
    name that existed keeps its place in the order of the profiles and a
    new name comes last. *)
Theorem save_profile_then_lookup :
  forall (name : string) (settings : json) (self self' : ProfileManager)
         (p p' : Process),
    save_profile name settings self p = (Returns tt, self', p') ->
    exists d,
      get_profiles self p = Returns (JDict d) /\
      get_profiles self' p' = Returns (JDict (dict_set name settings d)) /\
      dict_get name (dict_set name settings d) = Some settings /\
      (forall n, n <> name -> dict_get n (dict_set name settings d) = dict_get n d) /\
      keys (dict_set name settings d)
      = (if dict_mem name d then keys d else keys d ++ [name])%list.
Proof.
  intros name settings self self' p p' H.
  destruct (save_profile_inv _ _ _ _ _ _ _ H)
    as [(e & He & _) | (items & s & s' & p1 & _ & Hc & Hs & Hset & -> & ->)];
    [discriminate |].
  destruct (setitem_inv _ _ _ _ _ _ Hset) as (d & Hd & Hd' & _).
  exists d. repeat split.
  - unfold get_profiles, config_get. now rewrite Hc, Hs, Hd.
  - unfold get_profiles, config_get. cbn [config_data].
    rewrite dict_get_set_same. now rewrite <- Hd'.
  - apply dict_get_set_same.
  - intros n Hn. now apply dict_get_set_other.
  - apply keys_set.
Qed.

(** X13. [delete_profile] on a dictionary of profiles answers whether the
    name was there.  If it was, the name is gone afterwards and every
    other profile is as before; if it was not, nothing at all has changed:
    no write, no line printed. *)
Theorem delete_profile_spec :
  forall (name : string) (self self' : ProfileManager) (p p' : Process)
         (b : bool) (d : list (string * json)),
    delete_profile name self p = (Returns b, self', p') ->
    get_profiles self p = Returns (JDict d) ->
    b = dict_mem name d /\
    get_profiles self' p' = Returns (JDict (dict_del name d)) /\
    dict_get name (dict_del name d) = None /\
    (forall n, n <> name -> dict_get n (dict_del name d) = dict_get n d) /\
    (b = false -> self' = self /\ p' = p).
Proof.
  intros name self self' p p' b d H Hget.
  assert (Hlook : dict_get name (dict_del name d) = None /\
                  forall n, n <> name -> dict_get n (dict_del name d) = dict_get n d).
  { split; [apply dict_get_del_same | intros n Hn; now apply dict_get_del_other]. }
  destruct Hlook as (L1 & L2).
  destruct (delete_profile_inv _ _ _ _ _ _ H)
    as [(-> & -> & [(e & He) | (items & s & Hb & Hc & Hs & Hin)])
       | (items & s & s' & p1 & Hb & Hc & Hs & Hin & Hdel & -> & ->)].
  - discriminate.
  - injection Hb as ->.
    unfold get_profiles, config_get in Hget. rewrite Hc, Hs in Hget.
    injection Hget as Hd. rewrite Hd in Hin. cbn in Hin. injection Hin as Hin.
    repeat split; try assumption.
    + now rewrite Hin.
    + unfold get_profiles, config_get. rewrite Hc, Hs, Hd.
      now rewrite dict_del_absent.
  - injection Hb as ->.
    unfold get_profiles, config_get in Hget. rewrite Hc, Hs in Hget.
    injection Hget as Hd. rewrite Hd in Hin. cbn in Hin. injection Hin as Hin.
    destruct (delitem_inv _ _ _ _ _ Hdel) as (d0 & Hd0 & Hd0' & _).
    rewrite Hd in Hd0. injection Hd0 as <-.
    repeat split; try assumption.
    + now rewrite Hin.
    + unfold get_profiles, config_get. cbn [config_data].
      rewrite dict_get_set_same. now rewrite <- Hd0'.
    + discriminate.
    + discriminate.
Qed.

(** X14. The defaults are shared, not copied.  A manager that started from
    the defaults stores a saved profile in the dictionary [DEFAULT_PROFILES]
    itself, so that a manager created later in the same process on another
    absent file starts with that profile among its defaults.  A manager that
    loaded its file leaves [DEFAULT_PROFILES] alone. *)
Theorem defaults_are_shared :
  forall (path1 path2 name : string) (settings : json) (p : Process),
    fs p path1 = Missing -> fs p path2 = Missing -> path2 <> path1 ->
    (exists m1 p1 m1' p2 m2 p3,
       __init__ path1 p = (Returns m1, p1) /\
       save_profile name settings m1 p1 = (Returns tt, m1', p2) /\
       default_profiles p2 = dict_set name settings (default_profiles p) /\
       __init__ path2 p2 = (Returns m2, p3) /\
       get_profiles m2 p3
       = Returns (JDict (dict_set name settings (default_profiles p)))) /\
    (forall path_ q items m q',
       fs q path_ = Holds (JDict items) ->
       dict_mem "profiles" items = true -> dict_mem SETTINGS_KEY items = true ->
       __init__ path_ q = (Returns m, q') ->
       default_profiles (snd (save_profile name settings m q'))
       = default_profiles q).
Proof.
  intros path1 path2 name settings p H1 H2 Hne. split.
  - set (m1 := mk_ProfileManager path1 (fst (_create_default_config path1 p))).
    set (p1 := snd (_create_default_config path1 p)).
    set (p2 := snd (save_profile name settings m1 p1)).
    set (m2 := mk_ProfileManager path2 (fst (_create_default_config path2 p2))).
    exists m1, p1, m1, p2, m2, (snd (_create_default_config path2 p2)).
    assert (E2 : fs p2 path2 = Missing).
    { subst p2 p1 m1. cbn. apply String.eqb_neq in Hne. now rewrite Hne. }
    repeat split.
    + unfold __init__, _load_or_create. now rewrite H1.
    + unfold __init__, _load_or_create. now rewrite E2.
  - intros path_ q items m q' Hfs K1 K2 Hinit.
    unfold __init__, _load_or_create in Hinit. rewrite Hfs in Hinit.
    cbn [contains] in Hinit. rewrite K1, K2 in Hinit.
    injection Hinit as <- <-.
    unfold save_profile, profiles_slot. cbn [config_data loaded].
    rewrite (dict_get_map Val).
    destruct (dict_get "profiles" items) as [j |]; cbn; [| reflexivity].
    destruct j; reflexivity.
Qed.

(** ** Application settings *)

Lemma init_settings_own (path_ : string) (p p' : Process) (m : ProfileManager)
    (items : list (string * slot)) :
  __init__ path_ p = (Returns m, p') -> config_data m = CDict items ->
  exists j, dict_get SETTINGS_KEY items = Some (Val j).
Proof.
  unfold __init__, _load_or_create.
  assert (Hcreate : forall p0,
            fst (_create_default_config path_ p0) = CDict items ->
            exists j, dict_get SETTINGS_KEY items = Some (Val j)).
  { intros p0 H. cbn in H. injection H as <-. now eexists. }
  destruct (fs p path_) as [| | | data] eqn:Hfs.
  - intros H Hc; injection H as <- <-. now apply (Hcreate p).
  - discriminate.
  - intros H Hc; injection H as <- <-. now apply (Hcreate (print (WarningCorrupt path_) p)).
  - destruct (contains "profiles" data) as [[|] | e] eqn:H1;
      [| intros H Hc; injection H as <- <-;
         now apply (Hcreate (print (WarningCorrupt path_) p))
       | discriminate].
    destruct (contains SETTINGS_KEY data) as [[|] | e] eqn:H2;
      [| intros H Hc; injection H as <- <-;
         now apply (Hcreate (print (WarningCorrupt path_) p))
       | discriminate].
    intros H Hc; injection H as <- <-.
    destruct data; try discriminate. cbn in Hc. injection Hc as <-.
    cbn in H2. injection H2 as H2. unfold dict_mem in H2.
    rewrite (dict_get_map Val).
    destruct (dict_get SETTINGS_KEY items0) as [j |]; [| discriminate].
    now exists j.
Qed.

(** X15. After [save_app_setting] has returned, on a manager made by the
    constructor, the application settings are those of before with the
    value stored under the key, the profiles are untouched, and a manager
    opened afterwards on the same file finds the same settings. *)
Theorem save_app_setting_then_lookup :
  forall (path_ key : string) (value : json) (p p1 p2 : Process)
         (m m' : ProfileManager),
    __init__ path_ p = (Returns m, p1) ->
    save_app_setting key value m p1 = (Returns tt, m', p2) ->
    exists d m3,
      get_app_settings m p1 = Returns (JDict d) /\
      get_app_settings m' p2 = Returns (JDict (dict_set key value d)) /\
      dict_get key (dict_set key value d) = Some value /\
      get_profiles m' p2 = get_profiles m p1 /\
      __init__ path_ p2 = (Returns m3, p2) /\
      get_app_settings m3 p2 = Returns (JDict (dict_set key value d)).
Proof.
  intros path_ key value p p1 p2 m m' Hinit Hsave.
  destruct (init_inv _ _ _ _ Hinit) as (Hpath & _ & Hkeys).
  unfold save_app_setting in Hsave.
  destruct (config_data m) as [items | j0] eqn:Hc; [| discriminate].
  destruct (Hkeys items eq_refl) as (Kp & Ks).
  destruct (init_settings_own _ _ _ _ _ Hinit Hc) as (j & Hj).
  rewrite Hj in Hsave. cbn [setitem] in Hsave.
  destruct j; try discriminate.
  injection Hsave as <- <-.
  set (s' := Val (JDict (dict_set key value items0))).
  set (items' := dict_set SETTINGS_KEY s' items).
  set (held := map (fun kv => (fst kv, deref p1 (snd kv))) items').
  assert (G : dict_get SETTINGS_KEY items' = Some s') by apply dict_get_set_same.
  assert (Gp : dict_get "profiles" items' = dict_get "profiles" items).
  { apply dict_get_set_other. discriminate. }
  exists items0, (mk_ProfileManager path_ (loaded (JDict held))).
  repeat split.
  - unfold get_app_settings, config_get. now rewrite Hc, Hj.
  - unfold get_app_settings, config_get. cbn [config_data path].
    fold s' items'. now rewrite G.
  - apply dict_get_set_same.
  - unfold get_profiles, config_get. cbn [config_data path].
    fold s' items'. now rewrite Hc, Gp.
  - unfold __init__, _load_or_create. cbn [path config_data _write_to_file fs].
    rewrite Hpath, String.eqb_refl. fold s' items'. cbn [dump contains].
    fold held.
    assert (K1 : dict_mem "profiles" held = true).
    { unfold held. rewrite dict_mem_map. now apply dict_mem_set. }
    assert (K2 : dict_mem SETTINGS_KEY held = true).
    { unfold held. rewrite dict_mem_map. now apply dict_mem_set. }
    now rewrite K1, K2.
  - unfold get_app_settings, config_get. cbn [config_data loaded].
    rewrite (dict_get_map Val). unfold held. now rewrite dict_get_map, G.
Qed.

(** ** The profile store on concrete files *)

Lemma valid_file_loaded_as_is_witness :
  let stored := JDict [("profiles", JDict [("Mine", JDict [("cutoff", JInt 9000)])]);
                       (SETTINGS_KEY, default_settings_json)] in
  let p := fresh (fun _ => Holds stored) in
  exists m,
    __init__ "profiles.json" p = (Returns m, p) /\
    path m = "profiles.json" /\
    get_profiles m p = Returns (JDict [("Mine", JDict [("cutoff", JInt 9000)])]) /\
    get_app_settings m p = Returns default_settings_json /\
    in_sync m p.
Proof.
  intros stored p.
  apply (valid_file_loaded_as_is "profiles.json" p
           [("profiles", JDict [("Mine", JDict [("cutoff", JInt 9000)])]);
            (SETTINGS_KEY, default_settings_json)]);
    reflexivity.
Defined.

Lemma unusable_file_replaced_by_defaults_witness :
  let p := fresh (fun _ => Holds (JDict [("profiles", JDict [])])) in
  exists m p',
    __init__ "profiles.json" p = (Returns m, p') /\
    get_profiles m p' = Returns (JDict (default_profiles p)) /\
    get_app_settings m p' = Returns default_settings_json /\
    fs p' "profiles.json"
    = Holds (JDict [("profiles", JDict (default_profiles p));
                    (SETTINGS_KEY, default_settings_json)]) /\
    (forall q, q <> "profiles.json" -> fs p' q = fs p q) /\
    default_profiles p' = default_profiles p /\
    stdout p' = (stdout p ++
                 match fs p "profiles.json" with
                 | Missing => [CreatingDefaults "profiles.json"]
                 | _ => [WarningCorrupt "profiles.json";
                         CreatingDefaults "profiles.json"]
                 end)%list.
Proof.
  intros p.
  destruct (unusable_file_replaced_by_defaults "profiles.json" p) as [H _].
  apply H. right. right. exists (JDict [("profiles", JDict [])]).
  split; [reflexivity |]. right. split; reflexivity.
Defined.

Lemma scalar_file_fails_constructor_witness :
  let p := fresh (fun _ => Holds (JInt 3)) in
  __init__ "profiles.json" p = (Raises TypeError, p).
Proof.
  intros p.
  apply (scalar_file_fails_constructor "profiles.json" p (JInt 3)).
  - reflexivity.
  - intros items H; discriminate H.
  - intros l H; discriminate H.
  - intros s H; discriminate H.
Defined.


Lemma saved_profile_survives_reopening_witness :
  let p := fresh (fun _ => Missing) in
  let m := mk_ProfileManager "profiles.json"
             (fst (_create_default_config "profiles.json" p)) in
  let p1 := snd (_create_default_config "profiles.json" p) in
  let r := save_profile "Mine" (JDict [("cutoff", JInt 9000)]) m p1 in
  exists m3 d,
    __init__ "profiles.json" (snd r) = (Returns m3, snd r) /\
    get_profiles m3 (snd r) = Returns (JDict d) /\
    get_profiles (snd (fst r)) (snd r) = Returns (JDict d) /\
    dict_get "Mine" d = Some (JDict [("cutoff", JInt 9000)]).
Proof.
  intros p m p1 r.
  apply (saved_profile_survives_reopening "profiles.json" "Mine"
           (JDict [("cutoff", JInt 9000)]) p p1 (snd r) m (snd (fst r)));
    reflexivity.
Defined.

Lemma save_profile_then_lookup_witness :
  let p := fresh (fun _ => Missing) in
  let m := mk_ProfileManager "profiles.json"
             (fst (_create_default_config "profiles.json" p)) in
  let p1 := snd (_create_default_config "profiles.json" p) in
  let v := JDict [("cutoff", JInt 9000)] in
  let r := save_profile "Fast (Soxr)" v m p1 in
  exists d,
    get_profiles m p1 = Returns (JDict d) /\
    get_profiles (snd (fst r)) (snd r) = Returns (JDict (dict_set "Fast (Soxr)" v d)) /\
    dict_get "Fast (Soxr)" (dict_set "Fast (Soxr)" v d) = Some v /\
    (forall n, n <> "Fast (Soxr)" ->
       dict_get n (dict_set "Fast (Soxr)" v d) = dict_get n d) /\
    keys (dict_set "Fast (Soxr)" v d)
    = (if dict_mem "Fast (Soxr)" d then keys d else keys d ++ ["Fast (Soxr)"])%list.
Proof.
  intros p m p1 v r.
  apply (save_profile_then_lookup "Fast (Soxr)" v m (snd (fst r)) p1 (snd r)).
  reflexivity.
Defined.

Lemma delete_profile_spec_witness :
  let p := fresh (fun _ => Missing) in
  let m := mk_ProfileManager "profiles.json"
             (fst (_create_default_config "profiles.json" p)) in
  let p1 := snd (_create_default_config "profiles.json" p) in
  let r := delete_profile "Fast (Soxr)" m p1 in
  true = dict_mem "Fast (Soxr)" DEFAULT_PROFILES /\
  get_profiles (snd (fst r)) (snd r)
  = Returns (JDict (dict_del "Fast (Soxr)" DEFAULT_PROFILES)) /\
  dict_get "Fast (Soxr)" (dict_del "Fast (Soxr)" DEFAULT_PROFILES) = None /\
  (forall n, n <> "Fast (Soxr)" ->
     dict_get n (dict_del "Fast (Soxr)" DEFAULT_PROFILES)
     = dict_get n DEFAULT_PROFILES) /\
  (true = false -> snd (fst r) = m /\ snd r = p1).
Proof.
  intros p m p1 r.
  apply (delete_profile_spec "Fast (Soxr)" m (snd (fst r)) p1 (snd r) true
           DEFAULT_PROFILES);
    reflexivity.
Defined.

Lemma defaults_are_shared_witness :
  let p := fresh (fun _ => Missing) in
  let v := JDict [("cutoff", JInt 9000)] in
  exists m1 p1 m1' p2 m2 p3,
    __init__ "a.json" p = (Returns m1, p1) /\
    save_profile "Mine" v m1 p1 = (Returns tt, m1', p2) /\
    default_profiles p2 = dict_set "Mine" v (default_profiles p) /\
    __init__ "b.json" p2 = (Returns m2, p3) /\
    get_profiles m2 p3 = Returns (JDict (dict_set "Mine" v (default_profiles p))).
Proof.
  intros p v.
  apply (defaults_are_shared "a.json" "b.json" "Mine" v p).
  - reflexivity.
  - reflexivity.
  - intros H; discriminate H.
Defined.

Lemma save_app_setting_then_lookup_witness :
  let p := fresh (fun _ => Missing) in
  let m := mk_ProfileManager "profiles.json"
             (fst (_create_default_config "profiles.json" p)) in
  let p1 := snd (_create_default_config "profiles.json" p) in
  let r := save_app_setting "last_input_path" (JStr "/music") m p1 in
  exists d m3,
    get_app_settings m p1 = Returns (JDict d) /\
    get_app_settings (snd (fst r)) (snd r)
    = Returns (JDict (dict_set "last_input_path" (JStr "/music") d)) /\
    dict_get "last_input_path" (dict_set "last_input_path" (JStr "/music") d)
    = Some (JStr "/music") /\
    get_profiles (snd (fst r)) (snd r) = get_profiles m p1 /\
    __init__ "profiles.json" (snd r) = (Returns m3, snd r) /\
    get_app_settings m3 (snd r)
    = Returns (JDict (dict_set "last_input_path" (JStr "/music") d)).
Proof.
  intros p m p1 r.
  apply (save_app_setting_then_lookup "profiles.json" "last_input_path"
           (JStr "/music") p p1 (snd r) m (snd (fst r)));
    reflexivity.
Defined.

End ConfigFacts.

(** * The batch worker *)

Module BatchFacts.

Import Batch.

Section KernelRate.

Context {row coef : Type}.
Variable rt : Runtime row coef.

(** Whatever the mode, a pair that the kernel returns carries the rate the
    processor was built with. *)
Lemma kernel_keeps_rate (mode engine : string) (x : ndarray row)
    (sr C sr' : Z) (y : ndarray row) (out : list line) :
  fst (process_file rt mode (Ndarray x) sr C engine out) = Return (y, sr') ->
  sr' = sr.
Proof.
  unfold process_file, __init__.
  destruct (negb (issubdtype_floating (dtype_of x))); [discriminate |].
  set (s := mk_AudioProcessor x sr C (inject_Z (C * 2))).
  destruct (String.eqb mode "prepare"); cbn [fst snd].
  - destruct (Z.eq_dec (original_sr s) 0) as [HR | HR].
    { rewrite (prepare_zero_rate rt engine s out HR). discriminate. }
    destruct (resample_run rt (data s) (intermediate_sr s)
                (inject_Z (original_sr s)) engine s) as (r & Hres).
    rewrite (prepare_unfold rt engine s HR r Hres out).
    destruct r as [y0 | e]; [| discriminate].
    destruct (String.eqb engine "soxr").
    + destruct (filter_run rt y0 (original_sr s) 3 s) as (rf & fl & Hf & _).
      rewrite Hf. destruct rf; [| discriminate].
      cbn. intros H; now injection H as _ <-.
    + cbn. intros H; now injection H as _ <-.
  - destruct (restore_unfold rt engine s out) as (r & lines & _ & E).
    rewrite E. destruct r as [y0 | e]; [| discriminate].
    destruct (Qeq_bool (intermediate_sr s) 0); [discriminate |].
    cbn. intros H; now injection H as _ <-.
Qed.

End KernelRate.


Section Run.

Context {row coef files : Type}.
Variable rt : Runtime row coef.
Variable sf : SoundFile files row.
Variable settings : Settings.
Variable running : nat -> bool.

Lemma printed_ordinary (lines : list line) :
  forallb ordinary (map (@printed row) lines) = true /\
  files_read (map (@printed row) lines) = [] /\
  saved_names (map (@printed row) lines) = [].
Proof.
  induction lines as [| l rest (IH1 & IH2 & IH3)]; [now repeat split |].
  repeat split; cbn; assumption.
Qed.

(** X16. A file that [process_file] gets through is read once and written
    once: as 16-bit PCM, in the output folder, under the stem of the input
    followed by [_prepared] or [_restored] and the chosen format, and at
    the very sample rate it was read with. *)
Theorem processed_file_written_at_input_rate :
  forall (file_path : Path) (st st' : files) (log log' : list (event row)),
    Worker_process_file rt sf settings file_path st log = (None, st', log') ->
    exists frames sr y lines,
      sf_read sf st file_path = inr (frames, sr) /\
      process_file rt (process_mode settings)
        (Ndarray (mk_ndarray float64 frames)) sr (cutoff settings)
        (resampler settings) []
      = (Return (y, sr), lines) /\
      sf_write sf st (output_folder settings) (output_name settings file_path)
        y sr "PCM_16" = (None, st') /\
      log' = (log ++
              [progress_update (Processing (name file_path));
               sf_read_call file_path] ++
              map printed lines ++
              [sf_write_call (output_folder settings)
                 (output_name settings file_path) y sr "PCM_16";
               progress_update (Saved (output_name settings file_path))])%list.
Proof.
  intros f st st' log log'. unfold Worker_process_file.
  destruct (sf_read sf st f) as [msg | [frames sr]]; [discriminate |].
  destruct (process_file rt (process_mode settings)
              (Ndarray (mk_ndarray float64 frames)) sr (cutoff settings)
              (resampler settings) []) as [r lines] eqn:E.
  cbn [fst snd].
  destruct r as [[y sr'] | e]; [| discriminate].
  assert (Hsr : sr' = sr).
  { apply (kernel_keeps_rate rt (process_mode settings) (resampler settings)
             (mk_ndarray float64 frames) sr (cutoff settings) sr' y []).
    now rewrite E. }
  subst sr'. fold (output_name settings f).
  destruct (sf_write sf st (output_folder settings) (output_name settings f)
              y sr "PCM_16") as [[msg |] st1] eqn:Ew; [discriminate |].
  intros H; injection H as <- <-.
  exists frames, sr, y, lines.
  split; [reflexivity |]. split; [exact E |]. split; [exact Ew |].
  now rewrite <- !app_assoc.
Qed.

Lemma process_file_log (f : Path) (st : files) (log : list (event row)) :
  exists body,
    snd (Worker_process_file rt sf settings f st log) = (log ++ body)%list /\
    forallb ordinary body = true /\
    files_read body = [f] /\
    saved_names body
    = match fst (fst (Worker_process_file rt sf settings f st log)) with
      | None => [output_name settings f]
      | Some _ => []
      end.
Proof.
  unfold Worker_process_file.
  destruct (sf_read sf st f) as [msg | [frames sr]].
  - eexists. cbn [fst snd]. split; [reflexivity |]. now repeat split.
  - destruct (process_file rt (process_mode settings)
                (Ndarray (mk_ndarray float64 frames)) sr (cutoff settings)
                (resampler settings) []) as [r lines].
    cbn [fst snd].
    destruct (printed_ordinary lines) as (P1 & P2 & P3).
    unfold files_read, saved_names in *.
    destruct r as [[y sr'] | e].
    + fold (output_name settings f).
      destruct (sf_write sf st (output_folder settings) (output_name settings f)
                  y sr' "PCM_16") as [[msg |] st1]; cbn [fst snd].
      * exists ([progress_update (Processing (name f)); sf_read_call f] ++
                map printed lines ++
                [sf_write_call (output_folder settings) (output_name settings f)
                   y sr' "PCM_16"])%list.
        split; [now rewrite <- !app_assoc |].
        rewrite !forallb_app, !flat_map_app, P1, P2, P3.
        now repeat split.
      * exists ([progress_update (Processing (name f)); sf_read_call f] ++
                map printed lines ++
                [sf_write_call (output_folder settings) (output_name settings f)
                   y sr' "PCM_16";
                 progress_update (Saved (output_name settings f))])%list.
        split; [now rewrite <- !app_assoc |].
        rewrite !forallb_app, !flat_map_app, P1, P2, P3.
        now repeat split.
    + exists ([progress_update (Processing (name f)); sf_read_call f] ++
              map printed lines)%list.
      split; [now rewrite <- !app_assoc |].
      rewrite !forallb_app, !flat_map_app, P1, P2, P3.
      now repeat split.
Qed.

(** The loop, from index [i]: [j] files were started and [k] of them
    saved. *)
Lemma run_loop_shape (todo : list Path) :
  forall (i total : nat) (st : files) (log : list (event row)),
  exists j k body,
    snd (run_loop rt sf settings running i total todo st log)
    = (log ++ body ++
       match fst (fst (run_loop rt sf settings running i total todo st log)) with
       | Broken => [progress_update Stopped]
       | _ => []
       end)%list /\
    forallb ordinary body = true /\
    files_read body = firstn j todo /\
    saved_names body = map (output_name settings) (firstn k todo) /\
    (forall n, (n < j)%nat -> running (i + n)%nat = true) /\
    match fst (fst (run_loop rt sf settings running i total todo st log)) with
    | Exhausted => j = List.length todo /\ k = List.length todo
    | Broken => k = j /\ (j < List.length todo)%nat /\ running (i + j)%nat = false
    | Failed _ => j = S k /\ (j <= List.length todo)%nat
    end.
Proof.
  unfold files_read, saved_names.
  induction todo as [| f rest IH]; intros i total st log.
  - exists 0%nat, 0%nat, []. cbn. rewrite app_nil_r.
    repeat split. intros n Hn. lia.
  - cbn [run_loop].
    destruct (running i) eqn:Hrun; cbn [negb].
    + set (log1 := (log ++ [progress_update (Header (i + 1) total)])%list).
      destruct (process_file_log f st log1) as (b1 & E1 & O1 & R1 & S1).
      unfold files_read, saved_names in R1, S1.
      destruct (Worker_process_file rt sf settings f st log1)
        as [[res st1] log2] eqn:Ewf.
      cbn [fst snd] in E1, S1. subst log2.
      destruct res as [e |].
      * exists 1%nat, 0%nat, (progress_update (Header (i + 1) total) :: b1).
        cbn [fst snd]. repeat split.
        -- unfold log1. rewrite <- !app_assoc. cbn. now rewrite app_nil_r.
        -- cbn. exact O1.
        -- cbn. now rewrite R1.
        -- cbn. exact S1.
        -- intros n Hn. replace n with 0%nat by lia. now rewrite Nat.add_0_r.
        -- cbn. lia.
      * destruct (IH (S i) total st1 (log1 ++ b1)%list)
          as (j & k & b2 & E2 & O2 & R2 & S2 & Hr & Hend).
        exists (S j), (S k), (progress_update (Header (i + 1) total) :: b1 ++ b2)%list.
        rewrite E2. repeat split.
        -- unfold log1. rewrite <- !app_assoc. cbn [app].
           now rewrite <- !app_assoc.
        -- cbn. rewrite forallb_app. now rewrite O1, O2.
        -- cbn. rewrite flat_map_app. now rewrite R1, R2.
        -- cbn. rewrite flat_map_app. now rewrite S1, S2.
        -- intros n Hn. destruct n as [| n].
           ++ now rewrite Nat.add_0_r.
           ++ replace (i + S n)%nat with (S i + n)%nat by lia. apply Hr. lia.
        -- destruct (fst (fst (run_loop rt sf settings running (S i) total rest
                                  st1 (log1 ++ b1)%list))).
           ++ cbn. lia.
           ++ cbn. replace (i + S j)%nat with (S i + j)%nat by lia.
              destruct Hend as (? & ? & ?). repeat split; [lia | lia | assumption].
           ++ cbn. lia.
    + exists 0%nat, 0%nat, []. cbn. repeat split.
      * intros n Hn. lia.
      * lia.
      * now rewrite Nat.add_0_r.
Qed.

End Run.

Section RunFacts.

Context {row coef files : Type}.
Variable rt : Runtime row coef.
Variable sf : SoundFile files row.
Variable settings : Settings.
Variable running : nat -> bool.

Lemma ordinary_not_closing (body : list (event row)) (ev : event row) :
  forallb ordinary body = true -> In ev body -> is_closing ev = false.
Proof.
  intros H Hin. rewrite forallb_forall in H.
  specialize (H ev Hin). unfold ordinary in H. now destruct (is_closing ev).
Qed.

(** X17. A run closes in one way.  Its log ends with exactly one of the
    messages "stopped by user", "all tasks finished" and "critical error",
    followed by the signal [finished]; neither the signal nor any of the
    three messages occurs earlier.  In particular nothing is read, written
    or printed after an error, and [finished] is emitted once whatever
    happens. *)
Theorem run_closes_in_one_way :
  forall (todo : list Path) (st : files),
  exists body verdict,
    snd (Worker_run rt sf settings running todo st)
    = (body ++ [progress_update verdict; finished])%list /\
    (verdict = Stopped \/ verdict = AllFinished \/
     exists e, verdict = CriticalError e) /\
    (forall ev, In ev body -> is_closing ev = false).
Proof.
  intros todo st. unfold Worker_run.
  destruct (run_loop_shape rt sf settings running todo 0 (List.length todo) st [])
    as (j & k & body & E & O & _).
  destruct (run_loop rt sf settings running 0 (List.length todo) todo st [])
    as [[e st'] log'].
  cbn [fst snd] in E. subst log'. cbn [app].
  destruct e as [| | e]; cbn [snd].
  - exists body, AllFinished. split; [now rewrite app_nil_r |].
    split; [tauto |]. intros ev. now apply ordinary_not_closing.
  - exists body, Stopped. split; [now rewrite <- app_assoc |].
    split; [tauto |]. intros ev. now apply ordinary_not_closing.
  - exists body, (CriticalError e). split; [now rewrite app_nil_r |].
    split; [right; right; now exists e |].
    intros ev. now apply ordinary_not_closing.
Qed.

Lemma saved_names_app (l1 l2 : list (event row)) :
  saved_names (l1 ++ l2) = (saved_names l1 ++ saved_names l2)%list.
Proof. apply flat_map_app. Qed.

Lemma files_read_app (l1 l2 : list (event row)) :
  files_read (l1 ++ l2) = (files_read l1 ++ files_read l2)%list.
Proof. apply flat_map_app. Qed.

(** X18. The files are taken in the order of the list, and what a run
    reports as saved is the output of the first [k] of them, for some [k]:
    no file is skipped and none is saved twice.  "All tasks finished" is
    emitted if and only if [k] is the number of files, that is, when every
    file of the batch was saved. *)
Theorem saved_files_are_a_prefix :
  forall (todo : list Path) (st : files),
  exists k,
    (k <= List.length todo)%nat /\
    saved_names (snd (Worker_run rt sf settings running todo st))
    = map (output_name settings) (firstn k todo) /\
    (In (progress_update AllFinished)
        (snd (Worker_run rt sf settings running todo st))
     <-> k = List.length todo).
Proof.
  intros todo st. unfold Worker_run.
  destruct (run_loop_shape rt sf settings running todo 0 (List.length todo) st [])
    as (j & k & body & E & O & _ & S & _ & Hend).
  destruct (run_loop rt sf settings running 0 (List.length todo) todo st [])
    as [[e st'] log'].
  cbn [fst snd] in E, Hend. subst log'. cbn [app].
  assert (Hno : ~ In (progress_update AllFinished) body).
  { intros Hin. now pose proof (ordinary_not_closing body _ O Hin). }
  exists k.
  destruct e as [| | e]; cbn [snd].
  - destruct Hend as (-> & ->). split; [lia |]. split.
    + rewrite app_nil_r, saved_names_app, S. cbn. now rewrite ?app_nil_r.
    + split; [reflexivity |]. intros _.
      rewrite app_nil_r, in_app_iff. right. now left.
  - destruct Hend as (-> & Hlt & _). split; [lia |]. split.
    + rewrite !saved_names_app, S. cbn. now rewrite ?app_nil_r.
    + split; [| lia]. rewrite !in_app_iff. cbn.
      intros [[H | [H | []]] | [H | []]]; try discriminate H. contradiction.
  - destruct Hend as (-> & Hle). split; [lia |]. split.
    + rewrite app_nil_r, saved_names_app, S. cbn. now rewrite ?app_nil_r.
    + split; [| lia]. rewrite app_nil_r, in_app_iff. cbn.
      intros [H | [H | [H | []]]]; try discriminate H. contradiction.
Qed.

(** X19. A file is read only if the flag was still set when its turn came.
    The files read are the first [j] of the list, in order, for some [j];
    if the flag reads as cleared at the turn of index [k], then [j] is at
    most [k]: the file of index [k] and all that follow are never read,
    and "all tasks finished" is not emitted if there is such a file. *)
Theorem stop_is_honoured_between_files :
  forall (todo : list Path) (st : files) (k : nat),
    running k = false ->
    exists j,
      (j <= k)%nat /\
      files_read (snd (Worker_run rt sf settings running todo st))
      = firstn j todo /\
      ((k < List.length todo)%nat ->
       ~ In (progress_update AllFinished)
            (snd (Worker_run rt sf settings running todo st))).
Proof.
  intros todo st k Hk. unfold Worker_run.
  destruct (run_loop_shape rt sf settings running todo 0 (List.length todo) st [])
    as (j & k' & body & E & O & R & _ & Hrun & Hend).
  destruct (run_loop rt sf settings running 0 (List.length todo) todo st [])
    as [[e st'] log'].
  cbn [fst snd] in E, Hend. subst log'. cbn [app].
  assert (Hj : (j <= k)%nat).
  { destruct (Nat.le_gt_cases j k) as [H | H]; [exact H |].
    specialize (Hrun k H). cbn in Hrun. congruence. }
  assert (Hno : ~ In (progress_update AllFinished) body).
  { intros Hin. now pose proof (ordinary_not_closing body _ O Hin). }
  exists j. split; [exact Hj |].
  destruct e as [| | e]; cbn [snd].
  - destruct Hend as (Hjl & _). split.
    + rewrite app_nil_r, files_read_app, R. cbn. now rewrite ?app_nil_r.
    + intros Hlt. lia.
  - split.
    + rewrite !files_read_app, R. cbn. now rewrite ?app_nil_r.
    + intros _. rewrite !in_app_iff. cbn.
      intros [[H | [H | []]] | [H | []]]; try discriminate H. contradiction.
  - split.
    + rewrite app_nil_r, files_read_app, R. cbn. now rewrite ?app_nil_r.
    + intros _. rewrite app_nil_r, in_app_iff. cbn.
      intros [H | [H | [H | []]]]; try discriminate H. contradiction.
Qed.

End RunFacts.

Section KernelFailures.

Context {row coef : Type}.
Variable rt : Runtime row coef.
Hypothesis installed : libraries_installed rt.

(** With a known engine and a source rate other than zero, the resampling
    step returns, or fails with an exception of the library it called. *)
Lemma resample_by_library (x : ndarray row) (in_sr out_sr : Q)
    (engine : string) (w : World row) :
  engine = "scipy"%string \/ engine = "soxr"%string ->
  Qeq_bool in_sr 0 = false ->
  match fst (_resample rt x in_sr out_sr engine w) with
  | Return _ => True
  | Raise e => raised_by_library rt e
  end.
Proof.
  destruct installed as (Hf & Hm & _ & _).
  intros [-> | ->] Hin.
  - destruct (scipy_resample rt) as [f |] eqn:Ef; [| contradiction].
    rewrite (resample_scipy rt f) by assumption. cbn [fst].
    destruct (f x _ 0) as [y | e] eqn:E; [exact I |].
    left. exists f, x, (np_round (inject_Z (len x) * out_sr / in_sr)), 0.
    now split.
  - destruct (soxr rt) as [m |] eqn:Em; [| contradiction].
    unfold _resample, bind, print, call.
    cbn [String.eqb Ascii.eqb Bool.eqb]. rewrite Em. cbn [fst].
    destruct (soxr_resample m x in_sr out_sr "VHQ") as [y | e] eqn:E;
      [exact I |].
    right; left. exists m, x, in_sr, out_sr, "VHQ"%string. now split.
Qed.

(** With a rate other than zero, the filter returns, or fails with an
    exception of [butter] or of [filtfilt]. *)
Lemma filter_by_library (x : ndarray row) (sr passes : Z) (w : World row) :
  sr <> 0 ->
  match fst (_apply_zero_phase_filter rt x sr passes w) with
  | Return _ => True
  | Raise e => raised_by_library rt e
  end.
Proof.
  destruct installed as (_ & _ & Hb & Hg). intros Hsr.
  destruct (butter rt) as [b |] eqn:Eb; [| contradiction].
  destruct (filtfilt rt) as [g |] eqn:Eg; [| contradiction].
  unfold _apply_zero_phase_filter. rewrite Eb, Eg.
  unfold bind at 1 2 3, attr, print. cbn [self stdout].
  destruct (Qle_bool _ _); [exact I |].
  unfold bind at 1 2, attr. cbn [self].
  rewrite truediv_nonzero.
  - unfold bind, call.
    destruct (b (8 * passes) _ "low"%string false) as [ba | e] eqn:E1.
    + destruct (g (fst ba) (snd ba) x 0) as [y | e] eqn:E2; cbn [fst];
        [exact I |].
      right; right; right. exists g, (fst ba), (snd ba), x, 0. now split.
    + cbn [fst].
      right; right; left. eexists b, _, _, _, _. split; [exact Eb | exact E1].
  - destruct (Qeq_bool ((1 # 2) * inject_Z sr) 0) eqn:Hq; [| reflexivity].
    apply Qeq_bool_iff in Hq.
    assert (Hz : (inject_Z sr == 0)%Q) by lra.
    apply Qeq_bool_iff in Hz. rewrite Qeq_bool_inject_Z_0 in Hz.
    apply Z.eqb_eq in Hz. contradiction.
Qed.

End KernelFailures.

(** X20. Under the guards of the GUI the kernel has no failure of its own.
    The settings that [start_processing] hands over have a positive cutoff
    and name one of the two engines and one of the two modes.  With them,
    with the four libraries installed, and with a rate and a doubled
    cutoff that are doubles (up to 2^53, where [float] neither rounds nor
    overflows), [process_file] on a [float64] buffer with a rate other
    than zero returns a buffer with that rate, or fails with an exception
    that a library raised: never with the [TypeError], [ImportError],
    [ValueError] or [ZeroDivisionError] of the kernel itself. *)
Theorem gui_settings_never_fail_the_kernel :
  forall (row coef : Type) (rt : Runtime row coef)
         (quality_index cutoff_ : Z) (flac_checked restore_checked : bool)
         (folder : string) (settings : Settings)
         (frames : list row) (sr : Z) (out : list line),
    start_processing_settings quality_index flac_checked restore_checked
      cutoff_ folder = Some settings ->
    libraries_installed rt ->
    sr <> 0 -> Z.abs sr <= 2 ^ 53 -> 2 * cutoff_ <= 2 ^ 53 ->
    0 < cutoff settings /\
    (resampler settings = "scipy"%string \/ resampler settings = "soxr"%string) /\
    (process_mode settings = "prepare"%string \/
     process_mode settings = "restore"%string) /\
    ((exists y,
        fst (process_file rt (process_mode settings)
               (Ndarray (mk_ndarray float64 frames)) sr (cutoff settings)
               (resampler settings) out)
        = Return (y, sr)) \/
     (exists e,
        fst (process_file rt (process_mode settings)
               (Ndarray (mk_ndarray float64 frames)) sr (cutoff settings)
               (resampler settings) out)
        = Raise e /\ raised_by_library rt e)).
Proof.
  intros row coef rt q c fl re folder settings frames sr out Hs Hlib Hsr _ _.
  unfold start_processing_settings, start_processing_cutoff in Hs.
  destruct (Z.leb_spec c 0) as [Hc | Hc]; [discriminate |].
  injection Hs as <-. cbn [cutoff resampler process_mode].
  split; [exact Hc |].
  assert (He : (if (q =? 1)%Z then "soxr"%string else "scipy"%string) = "scipy"%string \/
               (if (q =? 1)%Z then "soxr"%string else "scipy"%string) = "soxr"%string).
  { destruct (q =? 1); tauto. }
  split; [exact He |].
  split; [destruct re; tauto |].
  set (engine := (if (q =? 1)%Z then "soxr"%string else "scipy"%string)) in *.
  unfold process_file, __init__. cbn [dtype_of issubdtype_floating negb].
  set (s := mk_AudioProcessor (mk_ndarray float64 frames) sr c (inject_Z (c * 2))).
  assert (HI : Qeq_bool (inject_Z (c * 2)) 0 = false).
  { rewrite Qeq_bool_inject_Z_0. apply Z.eqb_neq. lia. }
  assert (HR : Qeq_bool (inject_Z sr) 0 = false).
  { rewrite Qeq_bool_inject_Z_0. now apply Z.eqb_neq. }
  destruct re; cbn [String.eqb Ascii.eqb Bool.eqb fst snd].
  - (* restore *)
    destruct (restore_unfold rt engine s out) as (r & lines & Hres & E).
    rewrite E. cbn [intermediate_sr s]. rewrite HI.
    pose proof (resample_by_library rt Hlib (data s) (inject_Z (original_sr s))
                  (intermediate_sr s) engine (mk_World s []) He HR) as Hr.
    rewrite (Hres []) in Hr. cbn [fst] in Hr.
    destruct r as [y | e]; cbn [fst].
    + left. now exists y.
    + right. now exists e.
  - (* prepare *)
    destruct (resample_run rt (data s) (intermediate_sr s)
                (inject_Z (original_sr s)) engine s) as (r & Hres).
    rewrite (prepare_unfold rt engine s Hsr r Hres out).
    pose proof (resample_by_library rt Hlib (data s) (intermediate_sr s)
                  (inject_Z (original_sr s)) engine (mk_World s []) He HI) as Hr.
    rewrite (Hres []) in Hr. cbn [fst] in Hr.
    destruct r as [y | e]; [| right; now exists e].
    destruct (String.eqb engine "soxr"); [| left; now exists y].
    set (w := mk_World s _).
    pose proof (filter_by_library rt Hlib y (original_sr s) 3 w Hsr) as Hfil.
    destruct (filter_run rt y (original_sr s) 3 s) as (rf & fl' & Hf & _).
    unfold w in *. rewrite Hf in *. cbn [fst] in *.
    destruct rf as [z | e]; cbn [fst].
    + left. now exists z.
    + right. now exists e.
Qed.

(** ** A batch on the small runtime *)

Lemma processed_file_written_at_input_rate_witness :
  let f := mk_Path "in" "a" ".wav" in
  let r := Worker_process_file demo demo_sf batch_settings f [] [] in
  exists frames sr y lines,
    sf_read demo_sf [] f = inr (frames, sr) /\
    process_file demo (process_mode batch_settings)
      (Ndarray (mk_ndarray float64 frames)) sr (cutoff batch_settings)
      (resampler batch_settings) []
    = (Return (y, sr), lines) /\
    sf_write demo_sf [] (output_folder batch_settings)
      (output_name batch_settings f) y sr "PCM_16" = (None, snd (fst r)) /\
    snd r = ([] ++
             [progress_update (Processing (name f)); sf_read_call f] ++
             map printed lines ++
             [sf_write_call (output_folder batch_settings)
                (output_name batch_settings f) y sr "PCM_16";
              progress_update (Saved (output_name batch_settings f))])%list.
Proof.
  intros f r.
  apply (processed_file_written_at_input_rate demo demo_sf batch_settings f
           [] (snd (fst r)) [] (snd r)).
  reflexivity.
Defined.

Lemma stop_is_honoured_between_files_witness :
  let todo := [mk_Path "in" "a" ".wav"; mk_Path "in" "b" ".flac";
               mk_Path "in" "c" ".wav"] in
  let running := fun i => Nat.ltb i 1 in
  exists j,
    (j <= 1)%nat /\
    files_read (snd (Worker_run demo demo_sf batch_settings running todo []))
    = firstn j todo /\
    ((1 < List.length todo)%nat ->
     ~ In (progress_update AllFinished)
          (snd (Worker_run demo demo_sf batch_settings running todo []))).
Proof.
  intros todo running.
  apply (stop_is_honoured_between_files demo demo_sf batch_settings running
           todo [] 1%nat).
  reflexivity.
Defined.

Lemma gui_settings_never_fail_the_kernel_witness :
  let settings := mk_Settings "soxr" "flac" 17000 "restore" "out" in
  0 < cutoff settings /\
  (resampler settings = "scipy"%string \/ resampler settings = "soxr"%string) /\
  (process_mode settings = "prepare"%string \/
   process_mode settings = "restore"%string) /\
  ((exists y,
      fst (process_file demo_strict (process_mode settings)
             (Ndarray (mk_ndarray float64 [1%Q; 2%Q])) 44100 (cutoff settings)
             (resampler settings) [])
      = Return (y, 44100)) \/
   (exists e,
      fst (process_file demo_strict (process_mode settings)
             (Ndarray (mk_ndarray float64 [1%Q; 2%Q])) 44100 (cutoff settings)
             (resampler settings) [])
      = Raise e /\ raised_by_library demo_strict e)).
Proof.
  intros settings.
  apply (gui_settings_never_fail_the_kernel Q Q demo_strict 1 17000 true true "out"
           settings [1%Q; 2%Q] 44100 []).
  - reflexivity.
  - repeat split; discriminate.
  - lia.
  - vm_compute; discriminate.
  - vm_compute; discriminate.
Defined.

End BatchFacts.
